(** * The api/v2 request dispatcher of go-egaas-mvp

    A shallow embedding of [DefaultHandler], [errorAPI], [checkEcosystem]
    (api.go) and of [jwtToken], [jwtSave], [authWallet], [authState]
    (auth.go), with the properties of the request pipeline proved about it.

    Layout: Go runtime pieces the handlers call ([strconv.ParseInt],
    [encoding/hex.DecodeString]); the effect monad (response writer calls,
    log entries, storage consultations, panics); the jwt-go package as far
    as the two auth functions use it; the handlers themselves; theorems. *)

From stdpp Require Import gmap strings list pretty.
From Stdlib Require Import ZArith Ascii String.

Open Scope Z_scope.

(** ** Go strings

    A Go string is a sequence of bytes, which is what [string] is here.
    [len s] is the byte length, [s[n:]] is [str_drop n s]. *)

Definition len (s : string) : Z := Z.of_nat (String.length s).

Fixpoint str_drop (n : nat) (s : string) : string :=
  match n, s with
  | O, _ => s
  | S n', String _ s' => str_drop n' s'
  | S _, EmptyString => EmptyString
  end.

(** [strings.HasPrefix(s, pre)] *)
Fixpoint HasPrefix (s pre : string) {struct pre} : bool :=
  match pre, s with
  | EmptyString, _ => true
  | String _ _, EmptyString => false
  | String a pre', String b s' => Ascii.eqb a b && HasPrefix s' pre'
  end.

(** The double quote character, and [s] between double quotes. *)
Definition dq : string := String "034"%char EmptyString.
Definition quoted (s : string) : string := dq +:+ s +:+ dq.

(** [strings.Join]. *)
Fixpoint Join (l : list string) (sep : string) : string :=
  match l with
  | [] => EmptyString
  | [x] => x
  | x :: rest => x +:+ sep +:+ Join rest sep
  end.

(** [strings.Split s sep] for a separator of one byte: the pieces of [s]
    between the separators, one more piece than there are separators.
    [split_aux] gives the first piece and the list of the others. *)
Fixpoint split_aux (sep : ascii) (s : string) : string * list string :=
  match s with
  | EmptyString => (EmptyString, [])
  | String c s' =>
      let '(piece, others) := split_aux sep s' in
      if Ascii.eqb c sep then (EmptyString, piece :: others)
      else (String c piece, others)
  end.

Definition Split (s : string) (sep : ascii) : list string :=
  let '(piece, others) := split_aux sep s in piece :: others.

Definition split_dot (s : string) : list string := Split s "."%char.

(** ** Go errors

    An [error] value is kept as data; [Error_text] is its [Error()]
    method.  Two renderings are left to the runtime: [%q] quoting and the
    [%#U] form of a byte. *)

Inductive hexErr :=
| ErrLength
| InvalidByteError (b : ascii).

#[warnings="-register-all"]
Inductive error :=
| Errorf (msg : string)
| NumError (fn num : string) (out_of_range : bool)
| HexError (e : hexErr)
| ValidationError (inner : option error) (flags : Z) (text : string)
| ExternalError (msg : string).

(** ** strconv.ParseInt(s, 10, 64) *)

Module strconv.

Definition digit (c : ascii) : option Z :=
  let n := Z.of_N (N_of_ascii c) in
  if (48 <=? n) && (n <=? 57) then Some (n - 48) else None.

Definition maxUint64 : Z := 2 ^ 64 - 1.

Inductive uresult :=
| UOk (n : Z)
| USyntax
| URange.

(** The digit loop of [ParseUint] for base 10 and 64 bits: a character
    that is no digit is a syntax error, an overflow is a range error,
    whichever is met first. *)
Fixpoint ParseUint_loop (n : Z) (s : string) : uresult :=
  match s with
  | EmptyString => UOk n
  | String c s' =>
      match digit c with
      | None => USyntax
      | Some d =>
          if (maxUint64 / 10 + 1 <=? n) then URange
          else
            let n1 := n * 10 + d in
            if (maxUint64 <? n1) then URange
            else ParseUint_loop n1 s'
      end
  end.

Definition ParseUint (s : string) : uresult :=
  match s with
  | EmptyString => USyntax
  | _ => ParseUint_loop 0 s
  end.

Definition cutoff : Z := 2 ^ 63.

(** The value and the error ParseInt returns; both are always set. *)
Definition ParseInt (s : string) : Z * option error :=
  match s with
  | EmptyString => (0, Some (NumError "ParseInt" s false))
  | String c0 rest =>
      let neg := Ascii.eqb c0 "-"%char in
      let body :=
        if Ascii.eqb c0 "+"%char then rest
        else if neg then rest else s in
      match ParseUint body with
      | USyntax => (0, Some (NumError "ParseInt" s false))
      | URange =>
          if neg then (- cutoff, Some (NumError "ParseInt" s true))
          else (cutoff - 1, Some (NumError "ParseInt" s true))
      | UOk un =>
          if negb neg && (cutoff <=? un)
          then (cutoff - 1, Some (NumError "ParseInt" s true))
          else if neg && (cutoff <? un)
          then (- cutoff, Some (NumError "ParseInt" s true))
          else ((if neg then - un else un), None)
      end
  end.

End strconv.

(** ** encoding/hex.DecodeString *)

Module hex.

(** [reverseHexTable]: the value of a hexadecimal digit. *)
Definition fromHexChar (c : ascii) : option Z :=
  let n := Z.of_N (N_of_ascii c) in
  if (48 <=? n) && (n <=? 57) then Some (n - 48)
  else if (97 <=? n) && (n <=? 102) then Some (n - 97 + 10)
  else if (65 <=? n) && (n <=? 70) then Some (n - 65 + 10)
  else None.

Definition mkbyte (a b : Z) : Byte.byte :=
  byte_of_ascii (ascii_of_N (Z.to_N (Z.lor (Z.shiftl a 4) b))).

(** Pairs are decoded from the left; a bad character is reported
    before a bad length. *)
Fixpoint Decode (s : string) : list Byte.byte * option hexErr :=
  match s with
  | EmptyString => ([], None)
  | String p EmptyString =>
      match fromHexChar p with
      | None => ([], Some (InvalidByteError p))
      | Some _ => ([], Some ErrLength)
      end
  | String p (String q s') =>
      match fromHexChar p, fromHexChar q with
      | None, _ => ([], Some (InvalidByteError p))
      | Some _, None => ([], Some (InvalidByteError q))
      | Some a, Some b =>
          let '(bs, e) := Decode s' in (mkbyte a b :: bs, e)
      end
  end.

Definition DecodeString (s : string) : list Byte.byte * option error :=
  let '(bs, e) := Decode s in (bs, HexError <$> e).

(** All characters are hexadecimal digits. *)
Fixpoint all_hex (s : string) : bool :=
  match s with
  | EmptyString => true
  | String c s' => bool_decide (is_Some (fromHexChar c)) && all_hex s'
  end.

End hex.

(** ** Claims and tokens

    [JWTClaims] is declared in auth.go; [StandardClaims], the header and
    the token are those of the package jwt-go the program imports. *)

Record StandardClaims := {
  Audience : string;
  ExpiresAt : Z;
  Id : string;
  IssuedAt : Z;
  Issuer : string;
  NotBefore : Z;
  Subject : string;
}.

Record JWTClaims := {
  UID : string;
  State : string;
  Wallet : string;
  Standard : StandardClaims;
}.

Definition zeroStandardClaims : StandardClaims :=
  {| Audience := EmptyString; ExpiresAt := 0; Id := EmptyString;
     IssuedAt := 0; Issuer := EmptyString; NotBefore := 0;
     Subject := EmptyString |}.

(** [JWTClaims{}] *)
Definition zeroClaims : JWTClaims :=
  {| UID := EmptyString; State := EmptyString; Wallet := EmptyString;
     Standard := zeroStandardClaims |}.

Inductive Hash := SHA256 | SHA384 | SHA512.

(** The signing methods jwt-go registers: the HMAC family, and the others
    (RSA, RSA-PSS, ECDSA, none) by their [alg] name. *)
Inductive SigningMethod :=
| SigningMethodHMAC (h : Hash)
| SigningMethodOther (alg : string).

(** A value of the header map: a string or something else. *)
Inductive hval :=
| HString (s : string)
| HOther.

Record Token := {
  Raw : string;
  Method : option SigningMethod;
  Header : gmap string hval;
  Claims : option JWTClaims;
  Signature : string;
  Valid : bool;
}.

(** ** What lies outside the package

    Renderings of the [fmt] package, the JSON and base64 codecs, the MAC,
    the clock, and the registry [errors] of error codes, which errorAPI
    reads and which is declared in a file of the package that is not at
    hand. *)

(** A value passed through [params ...interface{}] of errorAPI. *)
Inductive arg :=
| AString (s : string)
| AInt64 (z : Z)
| ANil.

Class Runtime := {
  (** [fmt.Sprintf(template, args...)] *)
  Sprintf : string → list arg → string;
  (** the verb [%q] on a string *)
  Quote : string → string;
  (** the verb [%#U] on a byte *)
  FormatU : ascii → string;
  (** the verb [%v] on a [time.Duration] of that many seconds *)
  FormatDuration : Z → string;
  (** what [apiData.result] holds, and its zero value *)
  Payload : Type;
  nilPayload : Payload;
  (** [json.Marshal] on a result payload *)
  Marshal : Payload → string * option error;
  (** the registry [errors]: code to message template *)
  errors : gmap string string;
  (** jwt-go's base64url codec of one token segment *)
  EncodeSegment : string → string;
  DecodeSegment : string → string * option error;
  (** [encoding/json] on a token header and on the claims *)
  marshalHeader : gmap string hval → string * option error;
  unmarshalHeader : string → gmap string hval * option error;
  marshalClaims : JWTClaims → string * option error;
  unmarshalClaims : string → JWTClaims * option error;
  (** [hmac.New(h, key)] fed a message: the MAC bytes *)
  hmacSum : Hash → string → string → string;
  (** [Verify] of a method outside the HMAC family *)
  verifyOther : string → string → string → string → option error;
  (** [jwt.TimeFunc().Unix()] *)
  TimeFunc : Z;
}.

(** The verb [%v]. *)
Definition fmt_v (a : arg) : string :=
  match a with
  | AString s => s
  | AInt64 z => pretty z
  | ANil => "<nil>"
  end.

(** The method [Error()]. *)
Fixpoint Error_text `{Runtime} (e : error) : string :=
  match e with
  | Errorf msg => msg
  | NumError fn num rng =>
      "strconv." +:+ fn +:+ ": parsing " +:+ Quote num +:+ ": " +:+
      (if rng then "value out of range" else "invalid syntax")
  | HexError ErrLength => "encoding/hex: odd length hex string"
  | HexError (InvalidByteError b) => "encoding/hex: invalid byte: " +:+ FormatU b
  | ValidationError (Some inner) _ _ => Error_text inner
  | ValidationError None _ text =>
      if bool_decide (text = EmptyString) then "token is invalid" else text
  | ExternalError msg => msg
  end.

(** ** Effects

    A handler acts on the response writer, the logger, the package
    variable [installed] and the storage layer, and it may panic.  The
    writer is kept as the list of calls made on it, the logger as the list
    of entries, oldest first. *)

Inductive WCall :=
| HeaderSet (k v : string)
| WriteHeader (code : Z)
| Write (body : string).

Inductive Level := Info | Warning | Error.

Record LogEntry := {
  level : Level;
  (** the field "type", a constant of package consts *)
  type : option string;
  message : string;
}.

Record Env := {
  writer : list WCall;
  logged : list LogEntry;
  installed : bool;
  (** [model.DBConn != nil] *)
  DBConn : bool;
  (** [config.IsExist()] *)
  config_IsExist : bool;
  (** what [model.GetNextID] answers for a table *)
  next_id : string → Z * option error;
  (** the tables [model.GetNextID] was asked about *)
  queries : list string;
}.

Inductive Res (A : Type) :=
| Ok (a : A)
| Panic (v : string).
Arguments Ok {A} a.
Arguments Panic {A} v.

Definition M (A : Type) : Type := Env → Res A * Env.

#[global] Instance M_ret : MRet M := λ A a e, (Ok a, e).
#[global] Instance M_bind : MBind M := λ A B f m e,
  match m e with
  | (Ok a, e') => f a e'
  | (Panic v, e') => (Panic v, e')
  end.

Definition panic {A} (v : string) : M A := λ e, (Panic v, e).

(** The four ways the closure and its callees change the environment. *)
Definition env_call (c : WCall) (e : Env) : Env :=
  {| writer := writer e ++ [c]; logged := logged e;
     installed := installed e; DBConn := DBConn e;
     config_IsExist := config_IsExist e; next_id := next_id e;
     queries := queries e |}.

Definition env_log (l : LogEntry) (e : Env) : Env :=
  {| writer := writer e; logged := logged e ++ [l];
     installed := installed e; DBConn := DBConn e;
     config_IsExist := config_IsExist e; next_id := next_id e;
     queries := queries e |}.

Definition env_installed (e : Env) : Env :=
  {| writer := writer e; logged := logged e;
     installed := true; DBConn := DBConn e;
     config_IsExist := config_IsExist e; next_id := next_id e;
     queries := queries e |}.

Definition env_query (table : string) (e : Env) : Env :=
  {| writer := writer e; logged := logged e;
     installed := installed e; DBConn := DBConn e;
     config_IsExist := config_IsExist e; next_id := next_id e;
     queries := queries e ++ [table] |}.

Definition call (c : WCall) : M unit := λ e, (Ok tt, env_call c e).

Definition entry (l : Level) (ty : option string) (msg : string) : LogEntry :=
  {| level := l; type := ty; message := msg |}.

Definition log (l : Level) (ty : option string) (msg : string) : M unit :=
  λ e, (Ok tt, env_log (entry l ty msg) e).

Definition set_installed : M unit := λ e, (Ok tt, env_installed e).

Definition get_env : M Env := λ e, (Ok e, e).

(** [model.GetNextID(table)] *)
Definition GetNextID (table : string) : M (Z * option error) := λ e,
  (Ok (next_id e table), env_query table e).

(** ** errorAPI *)

Definition newline : string := String "010"%char EmptyString.

(** The first argument of errorAPI is an [interface{}]: the callers pass a
    code (a string) or an error value. *)
Inductive errArg :=
| ECode (v : string)
| EError (e : error).

(** [errCode], [msg] and [errParams] as the type switch leaves them. *)
Definition error_fields `{Runtime} (err : errArg) (params : list arg)
  : string * string * string :=
  match err with
  | ECode v =>
      match errors !! v with
      | Some val =>
          if bool_decide (0 < List.length params)%nat
          then (v, Sprintf val params,
                ", " +:+ quoted "params" +:+ ": [" +:+
                Join ((λ item, quoted (fmt_v item)) <$> params) "," +:+ "]")
          else (v, val, EmptyString)
      | None => (v, v, EmptyString)
      end
  | EError e => ("E_SERVER", Error_text e, EmptyString)
  end.

(** The line errorAPI prints: [{"error": %q, "msg": %q %s}]. *)
Definition envelope `{Runtime} (errCode msg errParams : string) : string :=
  "{" +:+ quoted "error" +:+ ": " +:+ Quote errCode +:+
  ", " +:+ quoted "msg" +:+ ": " +:+ Quote msg +:+ " " +:+ errParams +:+ "}"
  +:+ newline.

Definition errorAPI `{Runtime} (err : errArg) (code : Z) (params : list arg)
  : M error :=
  let '(errCode, msg, errParams) := error_fields err params in
  call (HeaderSet "X-Content-Type-Options" "nosniff");;
  call (WriteHeader code);;
  call (Write (envelope errCode msg errParams));;
  mret (Errorf (Sprintf msg [])).

(** HTTP status codes. *)
Definition StatusBadRequest : Z := 400.
Definition StatusUnauthorized : Z := 401.
Definition StatusInternalServerError : Z := 500.

(** ** The package jwt-go, as auth.go uses it

    [NewWithClaims] and [SignedString] on the issuing side,
    [ParseWithClaims] on the verifying side, with the validation of
    [StandardClaims] and the HMAC signing method.  The package is a
    dependency of the program; its control flow is written out here, its
    codecs and the MAC are those of [Runtime]. *)

Module jwt.

Definition ValidationErrorMalformed : Z := 1.
Definition ValidationErrorUnverifiable : Z := 2.
Definition ValidationErrorSignatureInvalid : Z := 4.
Definition ValidationErrorExpired : Z := 16.
Definition ValidationErrorIssuedAt : Z := 32.
Definition ValidationErrorNotValidYet : Z := 128.

Definition NewValidationError (text : string) (flags : Z) : error :=
  ValidationError None flags text.

Definition Alg (m : SigningMethod) : string :=
  match m with
  | SigningMethodHMAC SHA256 => "HS256"
  | SigningMethodHMAC SHA384 => "HS384"
  | SigningMethodHMAC SHA512 => "HS512"
  | SigningMethodOther alg => alg
  end.

Definition SigningMethodHS256 : SigningMethod := SigningMethodHMAC SHA256.

Definition otherMethods : list string :=
  ["RS256"; "RS384"; "RS512"; "PS256"; "PS384"; "PS512";
   "ES256"; "ES384"; "ES512"; "none"].

Definition GetSigningMethod (alg : string) : option SigningMethod :=
  if bool_decide (alg = "HS256") then Some (SigningMethodHMAC SHA256)
  else if bool_decide (alg = "HS384") then Some (SigningMethodHMAC SHA384)
  else if bool_decide (alg = "HS512") then Some (SigningMethodHMAC SHA512)
  else if bool_decide (alg ∈ otherMethods) then Some (SigningMethodOther alg)
  else None.

(** [verifyExp], [verifyIat], [verifyNbf]: an unset field (0) passes
    unless it is required. *)
Definition verifyExp (exp now : Z) (required : bool) : bool :=
  if exp =? 0 then negb required else now <=? exp.
Definition verifyIat (iat now : Z) (required : bool) : bool :=
  if iat =? 0 then negb required else iat <=? now.
Definition verifyNbf (nbf now : Z) (required : bool) : bool :=
  if nbf =? 0 then negb required else nbf <=? now.

(** [StandardClaims.Valid]: the three time checks, each adding its flag
    and replacing the inner error. *)
Definition Valid_claims `{Runtime} (c : StandardClaims) : option error :=
  let now := TimeFunc in
  let v0 : option error * Z := (None, 0) in
  let v1 :=
    if verifyExp (ExpiresAt c) now false then v0
    else (Some (Errorf ("token is expired by " +:+
                        FormatDuration (now - ExpiresAt c))),
          Z.lor (snd v0) ValidationErrorExpired) in
  let v2 :=
    if verifyIat (IssuedAt c) now false then v1
    else (Some (Errorf "Token used before issued"),
          Z.lor (snd v1) ValidationErrorIssuedAt) in
  let v3 :=
    if verifyNbf (NotBefore c) now false then v2
    else (Some (Errorf "token is not valid yet"),
          Z.lor (snd v2) ValidationErrorNotValidYet) in
  if snd v3 =? 0 then None
  else Some (ValidationError (fst v3) (snd v3) EmptyString).

(** [Sign] and [Verify] of a signing method.  The key is a byte string,
    which only the HMAC family signs with. *)
Definition Sign `{Runtime} (m : SigningMethod) (signingString key : string)
  : string * option error :=
  match m with
  | SigningMethodHMAC h => (EncodeSegment (hmacSum h key signingString), None)
  | SigningMethodOther alg =>
      (EmptyString, Some (Errorf "key is of invalid type"))
  end.

Definition Verify `{Runtime} (m : SigningMethod)
    (signingString signature key : string) : option error :=
  match m with
  | SigningMethodHMAC h =>
      match DecodeSegment signature with
      | (_, Some err) => Some err
      | (sig, None) =>
          if bool_decide (sig = hmacSum h key signingString) then None
          else Some (Errorf "signature is invalid")
      end
  | SigningMethodOther alg => verifyOther alg signingString signature key
  end.

(** [NewWithClaims(method, claims)] *)
Definition NewWithClaims (m : SigningMethod) (claims : JWTClaims) : Token :=
  {| Raw := EmptyString; Method := Some m;
     Header := <["typ" := HString "JWT"]> (<["alg" := HString (Alg m)]> ∅);
     Claims := Some claims; Signature := EmptyString; Valid := false |}.

(** [Token.SigningString]: the two encoded segments joined by a dot. *)
Definition SigningString `{Runtime} (t : Token) : string * option error :=
  match marshalHeader (Header t) with
  | (_, Some err) => (EmptyString, Some err)
  | (h, None) =>
      match marshalClaims (default zeroClaims (Claims t)) with
      | (_, Some err) => (EmptyString, Some err)
      | (c, None) => (Join [EncodeSegment h; EncodeSegment c] ".", None)
      end
  end.

(** [Token.SignedString(key)] *)
Definition SignedString `{Runtime} (t : Token) (key : string)
  : string * option error :=
  match SigningString t with
  | (_, Some err) => (EmptyString, Some err)
  | (sstr, None) =>
      match Method t with
      | None => (EmptyString, Some (Errorf "signing method (alg) is unspecified."))
      | Some m =>
          match Sign m sstr key with
          | (_, Some err) => (EmptyString, Some err)
          | (sig, None) => (Join [sstr; sig] ".", None)
          end
      end
  end.

(** ASCII lower case, enough to test the prefix "bearer ". *)
Definition lower (c : ascii) : ascii :=
  let n := N_of_ascii c in
  if ((65 <=? n) && (n <=? 90))%N then ascii_of_N (n + 32) else c.

Fixpoint ToLower (s : string) : string :=
  match s with
  | EmptyString => EmptyString
  | String c s' => String (lower c) (ToLower s')
  end.

(** [Parser.ParseUnverified]: split, decode the header and the claims,
    look the signing method up.  [claims] is what the caller passed to be
    filled. *)
Definition ParseUnverified `{Runtime} (tokenString : string) (claims : JWTClaims)
  : option Token * list string * option error :=
  let parts := split_dot tokenString in
  match parts with
  | [p0; p1; p2] =>
      let token0 := {| Raw := tokenString; Method := None; Header := ∅;
                       Claims := None; Signature := EmptyString;
                       Valid := false |} in
      match DecodeSegment p0 with
      | (_, Some err) =>
          if HasPrefix (ToLower tokenString) "bearer "
          then (Some token0, parts,
                Some (NewValidationError
                        "tokenstring should not contain 'bearer '"
                        ValidationErrorMalformed))
          else (Some token0, parts,
                Some (ValidationError (Some err) ValidationErrorMalformed
                        EmptyString))
      | (headerBytes, None) =>
          match unmarshalHeader headerBytes with
          | (hd, Some err) =>
              (Some {| Raw := tokenString; Method := None; Header := hd;
                       Claims := None; Signature := EmptyString;
                       Valid := false |}, parts,
               Some (ValidationError (Some err) ValidationErrorMalformed
                       EmptyString))
          | (hd, None) =>
              let token1 := {| Raw := tokenString; Method := None;
                               Header := hd; Claims := Some claims;
                               Signature := EmptyString; Valid := false |} in
              match DecodeSegment p1 with
              | (_, Some err) =>
                  (Some token1, parts,
                   Some (ValidationError (Some err) ValidationErrorMalformed
                           EmptyString))
              | (claimBytes, None) =>
                  match unmarshalClaims claimBytes with
                  | (c, Some err) =>
                      (Some {| Raw := tokenString; Method := None;
                               Header := hd; Claims := Some c;
                               Signature := EmptyString; Valid := false |},
                       parts,
                       Some (ValidationError (Some err)
                               ValidationErrorMalformed EmptyString))
                  | (c, None) =>
                      let token2 m :=
                        {| Raw := tokenString; Method := m; Header := hd;
                           Claims := Some c; Signature := EmptyString;
                           Valid := false |} in
                      match hd !! "alg" with
                      | Some (HString method) =>
                          match GetSigningMethod method with
                          | None =>
                              (Some (token2 None), parts,
                               Some (NewValidationError
                                       "signing method (alg) is unavailable."
                                       ValidationErrorUnverifiable))
                          | Some m => (Some (token2 (Some m)), parts, None)
                          end
                      | _ =>
                          (Some (token2 None), parts,
                           Some (NewValidationError
                                   "signing method (alg) is unspecified."
                                   ValidationErrorUnverifiable))
                      end
                  end
              end
          end
      end
  | _ =>
      (None, parts,
       Some (NewValidationError
               "token contains an invalid number of segments"
               ValidationErrorMalformed))
  end.

Definition with_signature (t : Token) (sig : string) (ok : bool) : Token :=
  {| Raw := Raw t; Method := Method t; Header := Header t;
     Claims := Claims t; Signature := sig; Valid := ok |}.

(** [Parser.ParseWithClaims]: after [ParseUnverified], ask [keyFunc] for
    the key, validate the claims, verify the signature.  The token is
    marked valid, and returned without an error, exactly when no check
    has set a flag. *)
Definition ParseWithClaims `{Runtime} (tokenString : string)
    (claims : JWTClaims) (keyFunc : Token → string * option error)
  : option Token * option error :=
  match ParseUnverified tokenString claims with
  | (token, _, Some err) => (token, Some err)
  | (None, _, None) => (None, None)
  | (Some token, parts, None) =>
      match keyFunc token with
      | (_, Some err) =>
          (Some token,
           Some (ValidationError (Some err) ValidationErrorUnverifiable
                   EmptyString))
      | (key, None) =>
          let vErr : option error * Z :=
            match Valid_claims (Standard (default zeroClaims (Claims token))) with
            | Some (ValidationError inner flags _) => (inner, flags)
            | Some err => (Some err, 512)
            | None => (None, 0)
            end in
          let sig := default EmptyString (parts !! 2%nat) in
          let vErr' :=
            match Method token with
            | None => vErr
            | Some m =>
                match Verify m (Join (take 2 parts) ".") sig key with
                | Some err =>
                    (Some err,
                     Z.lor (snd vErr) ValidationErrorSignatureInvalid)
                | None => vErr
                end
            end in
          if snd vErr' =? 0
          then (Some (with_signature token sig true), None)
          else (Some (with_signature token sig false),
                Some (ValidationError (fst vErr') (snd vErr') EmptyString))
      end
  end.

End jwt.

(** ** The request, the request context, the handlers *)

Record Request := {
  (** [r.Header] *)
  ReqHeader : gmap string (list string);
  (** [r.URL.Path] *)
  URLPath : string;
  (** [r.Form] once [r.ParseForm()] has run *)
  Form : gmap string (list string);
}.

Definition first_value (m : gmap string (list string)) (key : string) : string :=
  match m !! key with
  | Some (v :: _) => v
  | _ => EmptyString
  end.

(** [r.Header.Get(key)] and [r.FormValue(key)] *)
Definition Header_Get (r : Request) (key : string) : string :=
  first_value (ReqHeader r) key.
Definition FormValue (r : Request) (key : string) : string :=
  first_value (Form r) key.

(** A value of [apiData.params]. *)
Inductive Value :=
| VInt64 (z : Z)
| VBytes (b : list Byte.byte)
| VString (s : string).

Record apiData `{Runtime} := {
  status : Z;
  result : Payload;
  params : gmap string Value;
  state : Z;
  wallet : Z;
  token : option Token;
}.

(** [var data apiData] *)
Definition zeroData `{Runtime} : apiData :=
  {| status := 0; result := nilPayload; params := ∅; state := 0;
     wallet := 0; token := None |}.

Definition set_token `{Runtime} (d : apiData) (t : option Token) : apiData :=
  {| status := status d; result := result d; params := params d;
     state := state d; wallet := wallet d; token := t |}.

Definition set_identity `{Runtime} (d : apiData) (st wl : Z) : apiData :=
  {| status := status d; result := result d; params := params d;
     state := st; wallet := wl; token := token d |}.

Definition set_params `{Runtime} (d : apiData) (p : gmap string Value) : apiData :=
  {| status := status d; result := result d; params := p;
     state := state d; wallet := wallet d; token := token d |}.

(** [data.params[key] = v] *)
Definition set_param `{Runtime} (d : apiData) (key : string) (v : Value) : apiData :=
  set_params d (<[key := v]> (params d)).

(** A handler receives the writer and the logger through the monad, the
    request, and the context by reference: it returns its error and the
    context as it leaves it. *)
Definition apiHandle `{Runtime} : Type :=
  Request → apiData → M (option error * apiData).

(** ** auth.go *)

Definition jwtSecret : string := "test".
Definition jwtPrefix : string := "Bearer ".
Definition jwtExpire : Z := 36000.

(** The key function jwtToken hands to the parser: the secret for a
    method of the HMAC family, an error for any other. *)
Definition keyFunc `{Runtime} (t : Token) : string * option error :=
  match Method t with
  | Some (SigningMethodHMAC _) => (jwtSecret, None)
  | _ =>
      (EmptyString,
       Some (Errorf (Sprintf "Unexpected signing method: %v"
                       [match Header t !! "alg" with
                        | Some (HString a) => AString a
                        | _ => ANil
                        end])))
  end.

Definition jwtToken `{Runtime} (r : Request) : option Token * option error :=
  let auth := Header_Get r "Authorization" in
  if len auth =? 0 then (None, None)
  else if HasPrefix auth jwtPrefix
  then jwt.ParseWithClaims (str_drop (String.length jwtPrefix) auth)
         zeroClaims keyFunc
  else (None, Some (Errorf "wrong authorization value")).

(** jwtSave returns the error of errorAPI, or nil after setting the
    response header. *)
Definition jwtSave `{Runtime} (claims : JWTClaims) : M (option error) :=
  let token := jwt.NewWithClaims jwt.SigningMethodHS256 claims in
  match jwt.SignedString token jwtSecret with
  | (_, Some err) =>
      e ← errorAPI (ECode (Error_text err)) StatusInternalServerError [];
      mret (Some e)
  | (signedToken, None) =>
      call (HeaderSet "Authorization" (jwtPrefix +:+ signedToken));;
      mret None
  end.

Definition StatusText (code : Z) : string :=
  if code =? 401 then "Unauthorized"
  else if code =? 400 then "Bad Request"
  else if code =? 500 then "Internal Server Error"
  else EmptyString.

Definition authWallet `{Runtime} : apiHandle := λ r data,
  if wallet data =? 0
  then e ← errorAPI (ECode (StatusText StatusUnauthorized)) StatusUnauthorized [];
       mret (Some e, data)
  else mret (None, data).

Definition authState `{Runtime} : apiHandle := λ r data,
  if (wallet data =? 0) || (state data <=? 1)
  then e ← errorAPI (ECode (StatusText StatusUnauthorized)) StatusUnauthorized [];
       mret (Some e, data)
  else mret (None, data).

(** ** api.go *)

Definition pInt64 : Z := 0.
Definition pHex : Z := 1.
Definition pString : Z := 2.
Definition pOptional : Z := 256.

(** What a stage of the handler closure does next: go on with the
    context, or [return] from the closure. *)
Inductive Step (A : Type) :=
| Continue (a : A)
| Return.
Arguments Continue {A} a.
Arguments Return {A}.

(** [defer func() { if r := recover(); r != nil { ... } }()] around a
    body: a panic of the body is handed to [handler]; a panic of
    [handler] itself is not caught. *)
Definition deferred_recover (body : M unit) (handler : string → M unit) : M unit :=
  λ e, match body e with
       | (Ok tt, e') => (Ok tt, e')
       | (Panic v, e') => handler v e'
       end.

(** The installation gate. *)
Definition install_gate `{Runtime} (r : Request) : M (Step unit) :=
  e ← get_env;
  if negb (installed e) && negb (bool_decide (URLPath r = "/api/v2/install"))
  then
    if negb (DBConn e) && negb (config_IsExist e)
    then errorAPI (ECode "E_NOTINSTALLED") StatusInternalServerError [];;
         mret Return
    else set_installed;; mret (Continue tt)
  else mret (Continue tt).

(** The identity read from the claims of a valid token. *)
Definition read_identity `{Runtime} (data : apiData) : M apiData :=
  match token data with
  | Some tok =>
      if Valid tok then
        match Claims tok with
        | Some claims =>
            if 0 <? len (Wallet claims) then
              stateInt ←
                match strconv.ParseInt (State claims) with
                | (_, Some _) =>
                    log Warning (Some "ConvertionError")
                      "converting state to int failed, using 0";;
                    mret 0
                | (v, None) => mret v
                end;
              walletInt ←
                match strconv.ParseInt (Wallet claims) with
                | (_, Some _) =>
                    log Warning (Some "ConvertionError")
                      "converting wallet to int failed, using 0";;
                    mret 0
                | (v, None) => mret v
                end;
              mret (set_identity data stateInt walletInt)
            else mret data
        | None => mret data
        end
      else mret data
  | None => mret data
  end.

(** Token verification and identity. *)
Definition authenticate `{Runtime} (r : Request) (data : apiData)
  : M (Step apiData) :=
  match jwtToken r with
  | (_, Some err) =>
      log Error (Some "SessionError") "starting session";;
      errorAPI (EError err) StatusBadRequest [];;
      mret Return
  | (tok, None) =>
      data' ← read_identity (set_token data tok);
      mret (Continue data')
  end.

(** One turn of the loop over the schema. *)
Definition coerce `{Runtime} (r : Request) (key : string) (par : Z)
    (data : apiData) : M (Step apiData) :=
  let val := FormValue r key in
  if (Z.land par pOptional =? 0) && (len val =? 0)
  then
    log Error (Some "RouteError") "undefined val";;
    errorAPI (ECode "E_UNDEFINEVAL") StatusBadRequest [AString key];;
    mret Return
  else
    let kind := Z.land par 255 in
    if kind =? pInt64 then
      match strconv.ParseInt val with
      | (v, Some _) =>
          log Error (Some "ConvertionError") "converting http parameter to int";;
          mret (Continue (set_param data key (VInt64 v)))
      | (v, None) => mret (Continue (set_param data key (VInt64 v)))
      end
    else if kind =? pHex then
      match hex.DecodeString val with
      | (_, Some err) =>
          log Error (Some "ConvertionError") "decoding http parameter from hex";;
          errorAPI (EError err) StatusBadRequest [];;
          mret Return
      | (bin, None) => mret (Continue (set_param data key (VBytes bin)))
      end
    else if kind =? pString then
      mret (Continue (set_param data key (VString val)))
    else mret (Continue data).

(** [for key, par := range params]: the list is the schema in the order
    in which the loop meets its entries; Go leaves that order open. *)
Fixpoint coerce_all `{Runtime} (r : Request) (schema : list (string * Z))
    (data : apiData) : M (Step apiData) :=
  match schema with
  | [] => mret (Continue data)
  | (key, par) :: rest =>
      s ← coerce r key par data;
      match s with
      | Return => mret Return
      | Continue data' => coerce_all r rest data'
      end
  end.

(** [for _, par := range ps { data.params[par.Key] = par.Value }] *)
Definition path_params `{Runtime} (ps : list (string * string)) (data : apiData)
  : apiData :=
  foldl (λ d par, set_param d par.1 (VString par.2)) (set_params data ∅) ps.

(** [for _, handler := range handlers]: stop at the first handler that
    returns an error. *)
Fixpoint run_handlers `{Runtime} (handlers : list apiHandle) (r : Request)
    (data : apiData) : M (Step apiData) :=
  match handlers with
  | [] => mret (Continue data)
  | handler :: rest =>
      res ← handler r data;
      match res with
      | (Some _, _) => mret Return
      | (None, data') => run_handlers rest r data'
      end
  end.

(** The end of the closure: marshal the result and write it. *)
Definition respond `{Runtime} (data : apiData) : M unit :=
  match Marshal (result data) with
  | (_, Some err) =>
      log Error (Some "JSONMarshallError") "marhsalling http response to json";;
      errorAPI (EError err) StatusInternalServerError [];;
      mret tt
  | (jsonResult, None) => call (Write jsonResult)
  end.

(** Everything of the closure before the handlers run. *)
Definition prepare `{Runtime} (schema : list (string * Z)) (r : Request)
    (ps : list (string * string)) : M (Step apiData) :=
  call (HeaderSet "Access-Control-Allow-Origin" "*");;
  call (HeaderSet "Content-Type" "application/json; charset=utf-8");;
  g ← install_gate r;
  match g with
  | Return => mret Return
  | Continue _ =>
      a ← authenticate r zeroData;
      match a with
      | Return => mret Return
      | Continue data => coerce_all r schema (path_params ps data)
      end
  end.

(** The closure DefaultHandler returns, applied to a request and its
    path parameters. *)
Definition DefaultHandler `{Runtime} (schema : list (string * Z))
    (handlers : list apiHandle) (r : Request) (ps : list (string * string))
  : M unit :=
  log Info None "received http request";;
  deferred_recover
    (p ← prepare schema r ps;
     match p with
     | Return => mret tt
     | Continue data =>
         h ← run_handlers handlers r data;
         match h with
         | Return => mret tt
         | Continue data' => respond data'
         end
     end)
    (λ v,
       log Error (Some "PanicRecoveredError") "panic recovered error";;
       errorAPI (ECode "E_RECOVERED") StatusInternalServerError [];;
       mret tt).

(** checkEcosystem returns the partition and the error. *)
Definition checkEcosystem `{Runtime} (data : apiData) : M (Z * option error) :=
  match params data !! "ecosystem" with
  | Some (VInt64 ecosystem) =>
      if 0 <? ecosystem then
        res ← GetNextID "system_states";
        match res with
        | (_, Some err) =>
            log Error (Some "DBError") "getting next id system states";;
            e ← errorAPI (EError err) StatusBadRequest [];
            mret (0, Some e)
        | (count, None) =>
            if count <=? ecosystem then
              log Error None "state_id is larger then max count";;
              e ← errorAPI (ECode "E_ECOSYSTEM") StatusBadRequest
                    [AInt64 ecosystem];
              mret (0, Some e)
            else mret (ecosystem, None)
        end
      else mret (state data, None)
  | _ => panic "interface conversion: interface {} is not int64"
  end.

(** ** A runtime to run the handlers on

    Small stand-ins for the codecs: segments in hexadecimal, the header
    as its [alg], the claims as comma-separated fields, a MAC that joins
    key and message.  The registry holds the codes of errors.go that the
    functions above use. *)

Module Example.

Definition hexdigit (n : N) : ascii :=
  if (n <? 10)%N then ascii_of_N (48 + n) else ascii_of_N (87 + n).

Fixpoint EncodeToString (s : string) : string :=
  match s with
  | EmptyString => EmptyString
  | String c s' =>
      let n := N_of_ascii c in
      String (hexdigit (n / 16)) (String (hexdigit (n mod 16)) (EncodeToString s'))
  end.

Definition decode_segment (s : string) : string * option error :=
  let '(bs, e) := hex.DecodeString s in (string_of_list_byte bs, e).

Definition marshal_header (hd : gmap string hval) : string * option error :=
  match hd !! "alg" with
  | Some (HString a) => (a, None)
  | _ => (EmptyString, Some (ExternalError "json: unsupported value"))
  end.

Definition unmarshal_header (s : string) : gmap string hval * option error :=
  (<["typ" := HString "JWT"]> (<["alg" := HString s]> ∅), None).

Definition marshal_claims (c : JWTClaims) : string * option error :=
  (Join [UID c; State c; Wallet c;
         pretty (ExpiresAt (Standard c)); pretty (IssuedAt (Standard c));
         pretty (NotBefore (Standard c)); Audience (Standard c);
         Id (Standard c); Issuer (Standard c); Subject (Standard c)] ",",
   None).

Definition unmarshal_claims (s : string) : JWTClaims * option error :=
  match Split s ","%char with
  | [uid; st; wl; exp; iat; nbf; aud; id; iss; sub] =>
      match strconv.ParseInt exp, strconv.ParseInt iat, strconv.ParseInt nbf with
      | (e, None), (i, None), (n, None) =>
          ({| UID := uid; State := st; Wallet := wl;
              Standard := {| Audience := aud; ExpiresAt := e; Id := id;
                             IssuedAt := i; Issuer := iss; NotBefore := n;
                             Subject := sub |} |}, None)
      | _, _, _ => (zeroClaims, Some (ExternalError "json: cannot unmarshal"))
      end
  | _ => (zeroClaims, Some (ExternalError "unexpected end of JSON input"))
  end.

Definition registry : gmap string string :=
  list_to_map
    [("E_ECOSYSTEM", "Ecosystem %d doesn't exist");
     ("E_NOTINSTALLED", "Apla is not installed");
     ("E_RECOVERED", "API recovered");
     ("E_SERVER", "Server error");
     ("E_UNDEFINEVAL", "Value %s is undefined")].

Definition now : Z := 1500000000.

#[export] Instance runtime : Runtime := {|
  Sprintf tmpl args := Join (tmpl :: (fmt_v <$> args)) " ";
  Quote := quoted;
  FormatU c := String c EmptyString;
  FormatDuration z := pretty z +:+ "s";
  Payload := string;
  nilPayload := "null";
  Marshal p := (p, None);
  errors := registry;
  EncodeSegment := EncodeToString;
  DecodeSegment := decode_segment;
  marshalHeader := marshal_header;
  unmarshalHeader := unmarshal_header;
  marshalClaims := marshal_claims;
  unmarshalClaims := unmarshal_claims;
  hmacSum h key msg := key +:+ ":" +:+ msg;
  verifyOther alg signingString signature key :=
    Some (Errorf "key is of invalid type");
  TimeFunc := now;
|}.

(** An installed server that has not answered anything yet; storage
    says the next partition id is 3. *)
Definition env0 : Env :=
  {| writer := []; logged := []; installed := true; DBConn := true;
     config_IsExist := true;
     next_id table := (3, None);
     queries := [] |}.

(** The same with a storage layer that fails. *)
Definition env_down : Env :=
  {| writer := []; logged := []; installed := true; DBConn := true;
     config_IsExist := true;
     next_id table := (0, Some (ExternalError "connection refused"));
     queries := [] |}.

Definition request (auth : list string) (form : list (string * list string))
  : Request :=
  {| ReqHeader := list_to_map ((λ a, ("Authorization", [a])) <$> auth);
     URLPath := "/api/v2/balance";
     Form := list_to_map form |}.

Definition claims (st wl : string) (exp iat nbf : Z) : JWTClaims :=
  {| UID := "u1"; State := st; Wallet := wl;
     Standard := {| Audience := EmptyString; ExpiresAt := exp;
                    Id := EmptyString; IssuedAt := iat;
                    Issuer := EmptyString; NotBefore := nbf;
                    Subject := EmptyString |} |}.

(** The header value jwtSave sets for [c]. *)
Definition bearer (c : JWTClaims) : string :=
  jwtPrefix +:+ (jwt.SignedString (jwt.NewWithClaims jwt.SigningMethodHS256 c) jwtSecret).1.

(** A handler that records the identity it sees in the result. *)
Definition probe : apiHandle := λ r data,
  mret (None,
        {| status := status data;
           result := pretty (state data) +:+ "/" +:+ pretty (wallet data);
           params := params data; state := state data;
           wallet := wallet data; token := token data |}).

(** A handler that fails through errorAPI, and one that panics. *)
Definition failing : apiHandle := λ r data,
  e ← errorAPI (ECode "E_SERVER") StatusInternalServerError [];
  mret (Some e, data).

Definition panicking : apiHandle := λ r data, panic "index out of range".

End Example.

(** ** Vocabulary of the statements *)

(** Several writer calls in a row. *)
Definition env_calls (cs : list WCall) (e : Env) : Env :=
  {| writer := writer e ++ cs; logged := logged e;
     installed := installed e; DBConn := DBConn e;
     config_IsExist := config_IsExist e; next_id := next_id e;
     queries := queries e |}.

(** The three writer calls of one errorAPI. *)
Definition error_calls `{Runtime} (err : errArg) (code : Z) (params : list arg)
  : list WCall :=
  let '(errCode, msg, errParams) := error_fields err params in
  [HeaderSet "X-Content-Type-Options" "nosniff";
   WriteHeader code;
   Write (envelope errCode msg errParams)].

(** The two headers every response starts with. *)
Definition common_headers : list WCall :=
  [HeaderSet "Access-Control-Allow-Origin" "*";
   HeaderSet "Content-Type" "application/json; charset=utf-8"].

(** The installation gate lets the request through. *)
Definition gate_open (e : Env) (r : Request) : bool :=
  installed e || bool_decide (URLPath r = "/api/v2/install")
  || DBConn e || config_IsExist e.

(** The environment once the request is logged, the common headers are
    set and the open gate is passed. *)
Definition started (e : Env) (r : Request) : Env :=
  let e1 := env_calls common_headers
              (env_log (entry Info None "received http request") e) in
  if negb (installed e) && negb (bool_decide (URLPath r = "/api/v2/install"))
  then env_installed e1 else e1.

(** A schema entry is required; its kind. *)
Definition required (par : Z) : bool := Z.land par pOptional =? 0.
Definition kind (par : Z) : Z := Z.land par 255.

(** Decimal text: an optional sign, then digits, at least one. *)
Fixpoint all_digits (s : string) : bool :=
  match s with
  | EmptyString => true
  | String c s' => bool_decide (is_Some (strconv.digit c)) && all_digits s'
  end.

Definition numeric (s : string) : bool :=
  match s with
  | EmptyString => false
  | String c rest =>
      if Ascii.eqb c "+"%char || Ascii.eqb c "-"%char
      then negb (bool_decide (rest = EmptyString)) && all_digits rest
      else all_digits s
  end.

(** Text that is no hexadecimal string: a character that is no
    hexadecimal digit, or an odd length. *)
Definition malformed_hex (s : string) : bool :=
  negb (hex.all_hex s) || Nat.odd (String.length s).

(** The turn of the loop for this entry stops the request: the value is
    missing where it is required, or it is of the hex kind and does not
    decode. *)
Definition fails (r : Request) (key : string) (par : Z) : bool :=
  (required par && (len (FormValue r key) =? 0))
  || ((kind par =? pHex)
      && bool_decide (is_Some (hex.DecodeString (FormValue r key)).2)).

(** The handlers of [hs] run one after the other from [data] and [e],
    each returns nil; what the last one leaves. *)
Fixpoint all_succeed `{Runtime} (hs : list apiHandle) (r : Request)
    (data : apiData) (e : Env) : option (apiData * Env) :=
  match hs with
  | [] => Some (data, e)
  | h :: rest =>
      match h r data e with
      | (Ok (None, data'), e') => all_succeed rest r data' e'
      | _ => None
      end
  end.

(** The environment after a recovered panic. *)
Definition recovered `{Runtime} (e : Env) : Env :=
  env_calls (error_calls (ECode "E_RECOVERED") StatusInternalServerError [])
    (env_log (entry Error (Some "PanicRecoveredError") "panic recovered error") e).

(** A string without a dot. *)
Fixpoint dotless (s : string) : bool :=
  match s with
  | EmptyString => true
  | String c s' => negb (Ascii.eqb c "."%char) && dotless s'
  end.

(** The codecs of the runtime give back what jwtSave encodes for [c]:
    the header with its [alg], the claims, the MAC; and an encoded
    segment holds no dot. *)
Definition codec_faithful `{Runtime} (c : JWTClaims) : Prop :=
  ∃ header_bytes claims_bytes hd,
    let signing := Join [EncodeSegment header_bytes;
                         EncodeSegment claims_bytes] "." in
    let mac := hmacSum SHA256 jwtSecret signing in
    marshalHeader (Header (jwt.NewWithClaims jwt.SigningMethodHS256 c))
      = (header_bytes, None) ∧
    marshalClaims c = (claims_bytes, None) ∧
    DecodeSegment (EncodeSegment header_bytes) = (header_bytes, None) ∧
    DecodeSegment (EncodeSegment claims_bytes) = (claims_bytes, None) ∧
    DecodeSegment (EncodeSegment mac) = (mac, None) ∧
    unmarshalHeader header_bytes = (hd, None) ∧
    hd !! "alg" = Some (HString "HS256") ∧
    unmarshalClaims claims_bytes = (c, None) ∧
    dotless (EncodeSegment header_bytes) = true ∧
    dotless (EncodeSegment claims_bytes) = true ∧
    dotless (EncodeSegment mac) = true.

(** The time fields of the claims pass at the current time: each is unset
    or on the right side of the clock. *)
Definition in_time `{Runtime} (c : StandardClaims) : Prop :=
  (ExpiresAt c = 0 ∨ TimeFunc ≤ ExpiresAt c) ∧
  (IssuedAt c = 0 ∨ IssuedAt c ≤ TimeFunc) ∧
  (NotBefore c = 0 ∨ NotBefore c ≤ TimeFunc).

(** ** Packages of the repository that are not at hand

    The functions below call into packages converter, utils, template and
    into the storage methods of the controller.  Their results are taken
    as they come; nothing is assumed about them. *)

Class Packages := {
  (** [utils.TypeInt(txName)] *)
  TypeInt : string → Z;
  (** [converter.EncodeLengthPlusData] *)
  EncodeLengthPlusData : list Byte.byte → list Byte.byte;
  (** [converter.Int64ToStr], [converter.StrToInt], [converter.StrToInt64] *)
  Int64ToStr : Z → string;
  StrToInt : string → Z;
  StrToInt64 : string → Z;
  (** [converter.AddressToString] *)
  AddressToString : Z → string;
  (** [time.Now().Unix()] *)
  UnixNow : Z;
  (** [template.StateParam(state, name)] *)
  StateParam : Z → string → string * option error;
  (** [Controller.GetAccountAmount(state, citizen)] *)
  GetAccountAmount : Z → Z → string * option error;
  (** [Controller.GetAnonyms(state, citizen)]: rows as column maps *)
  GetAnonyms : Z → Z → list (gmap string string) * option error;
  (** what [Controller.Data] holds *)
  CommonPage : Type;
}.

(** ** api.go: transaction headers *)

(** [tx.Header], with the fields the two constructors set. *)
Record TxHeader := {
  Type_ : Z;
  Time : Z;
  UserID : Z;
  StateID : Z;
  PublicKey : list Byte.byte;
  BinSignatures : list Byte.byte;
}.

(** [tx.Header{}] *)
Definition zeroHeader : TxHeader :=
  {| Type_ := 0; Time := 0; UserID := 0; StateID := 0;
     PublicKey := []; BinSignatures := [] |}.

Definition getPrefix `{Runtime} `{PK : Packages} (data : apiData) : string :=
  Int64ToStr (state data).


(** [publicKey[lenpub-64:]] when [lenpub > 64]. *)
Definition last64 (publicKey : list Byte.byte) : list Byte.byte :=
  let lenpub := Z.of_nat (List.length publicKey) in
  if 64 <? lenpub then drop (Z.to_nat (lenpub - 64)) publicKey
  else publicKey.

(** getHeader returns the header and the error; a parameter of the wrong
    dynamic type makes its type assertion panic. *)
Definition getHeader `{Runtime} `{PK : Packages} (txName : string) (data : apiData)
  : M (TxHeader * option error) :=
  publicKey ←
    match params data !! "pubkey" with
    | None => mret (list_byte_of_string "null")
    | Some (VBytes b) =>
        if 0 <? Z.of_nat (List.length b) then mret (last64 b)
        else mret (list_byte_of_string "null")
    | Some _ => panic "interface conversion: interface {} is not []uint8"
    end;
  match params data !! "signature" with
  | Some (VBytes signature) =>
      if Z.of_nat (List.length signature) =? 0 then
        log Error None "signature is empty";;
        mret (zeroHeader, Some (Errorf "signature is empty"))
      else
        match params data !! "time" with
        | Some (VString t) =>
            let '(timeInt, err) := strconv.ParseInt t in
            match err with
            | Some _ =>
                log Error (Some "ConvertionError")
                  "converting http param time to int"
            | None => mret tt
            end;;
            mret ({| Type_ := TypeInt txName; Time := timeInt;
                     UserID := wallet data; StateID := state data;
                     PublicKey := publicKey;
                     BinSignatures := EncodeLengthPlusData signature |},
                  None)
        | _ => panic "interface conversion: interface {} is not string"
        end
  | _ => panic "interface conversion: interface {} is not []uint8"
  end.

(** ** accounts.go *)












(** ** Vocabulary of the further statements *)

(** The number a claim holds, 0 when it is no int64 in decimal. *)
Definition parsed_or_zero (s : string) : Z :=
  match strconv.ParseInt s with
  | (v, None) => v
  | (_, Some _) => 0
  end.

(** [e'] differs from [e] in what was written and logged only: the
    storage side and the package variable are the same. *)
Definition same_server (e e' : Env) : Prop :=
  installed e' = installed e ∧ DBConn e' = DBConn e ∧
  config_IsExist e' = config_IsExist e ∧ next_id e' = next_id e ∧
  queries e' = queries e.

(** One errorAPI answer with this status was written after [ws]. *)
Definition answered (ws : list WCall) (code : Z) (ws' : list WCall) : Prop :=
  ∃ body, ws' = ws ++ [HeaderSet "X-Content-Type-Options" "nosniff";
                        WriteHeader code; Write body].

(** A server that is not installed: no database connection, no
    configuration file. *)
Definition env_fresh : Env :=
  {| writer := []; logged := []; installed := false; DBConn := false;
     config_IsExist := false;
     next_id table := (0, Some (ExternalError "not connected"));
     queries := [] |}.

(** The value the loop over the schema stores for an entry that does not
    fail, by the kind of the entry; nothing for a kind that is none of
    the three. *)
Definition typed_value (r : Request) (key : string) (par : Z) : option Value :=
  if kind par =? pInt64
  then Some (VInt64 (strconv.ParseInt (FormValue r key)).1)
  else if kind par =? pHex
  then Some (VBytes (hex.DecodeString (FormValue r key)).1)
  else if kind par =? pString
  then Some (VString (FormValue r key))
  else None.

(** Stand-ins for the packages, to run getHeader and Accounts on: two
    money digits, the currency EGS, an own amount of 1500 and two
    anonymous accounts, one of them without an amount. *)
Definition example_packages : Packages := {|
  TypeInt name := if bool_decide (name = "NewAccount") then 9 else 1;
  EncodeLengthPlusData b := Byte.x01 :: b;
  Int64ToStr := pretty;
  StrToInt s := (strconv.ParseInt s).1;
  StrToInt64 s := (strconv.ParseInt s).1;
  AddressToString z := pretty z;
  UnixNow := Example.now;
  StateParam st name :=
    if bool_decide (name = "money_digit") then ("2", None) else ("EGS", None);
  GetAccountAmount st citizen := ("1500", None);
  GetAnonyms st citizen :=
    ([list_to_map [("id_anonym", "7"); ("amount", "5")];
      list_to_map [("id_anonym", "8"); ("amount", "NULL")]], None);
  CommonPage := unit;
|}.

(** The closed statements below run on the example runtime. *)
#[local] Existing Instance Example.runtime | 100.

(** * Properties *)

(** ** Running the monad *)

Lemma bind_ok {A B} (m : M A) (f : A → M B) e a e' :
  m e = (Ok a, e') → (m ≫= f) e = f a e'.
Proof. intros Hm. unfold mbind, M_bind. by rewrite Hm. Qed.

Lemma bind_panic {A B} (m : M A) (f : A → M B) e v e' :
  m e = (Panic v, e') → (m ≫= f) e = (Panic v, e').
Proof. intros Hm. unfold mbind, M_bind. by rewrite Hm. Qed.

Lemma env_calls_app cs1 cs2 e :
  env_calls cs2 (env_calls cs1 e) = env_calls (cs1 ++ cs2) e.
Proof. unfold env_calls; simpl. by rewrite app_assoc. Qed.

Lemma env_call_calls c e : env_call c e = env_calls [c] e.
Proof. done. Qed.

Section Dispatcher.
Context `{RT : Runtime}.

Lemma errorAPI_run err code ps e :
  ∃ x, errorAPI err code ps e = (Ok x, env_calls (error_calls err code ps) e).
Proof.
  unfold errorAPI, error_calls.
  destruct (error_fields err ps) as [[c m] p].
  eexists. unfold mbind, M_bind, call, mret, M_ret; simpl.
  rewrite !env_call_calls, !env_calls_app. simpl. reflexivity.
Qed.

Lemma ParseWithClaims_nil_error s c k tok :
  jwt.ParseWithClaims s c k = (Some tok, None) → Valid tok = true.
Proof.
  unfold jwt.ParseWithClaims. intros Hp.
  repeat case_match; simplify_eq; done.
Qed.

Lemma jwtToken_nil_error r tok :
  jwtToken r = (Some tok, None) → Valid tok = true.
Proof.
  unfold jwtToken. intros Hp.
  repeat case_match; simplify_eq.
  eauto using ParseWithClaims_nil_error.
Qed.


Lemma install_gate_run r e :
  gate_open e r = true →
  install_gate r e =
    (Ok (Continue tt),
     if negb (installed e) && negb (bool_decide (URLPath r = "/api/v2/install"))
     then env_installed e else e).
Proof.
  unfold gate_open, install_gate. intros Hg.
  unfold mbind, M_bind, get_env. simpl.
  destruct (installed e); simpl; [done|].
  destruct (bool_decide (URLPath r = "/api/v2/install")); simpl; [done|].
  simpl in Hg.
  destruct (DBConn e); simpl; [done|].
  destruct (config_IsExist e); simpl; [done|]. discriminate.
Qed.

(** The closure up to the token: headers, gate. *)
Lemma prepare_gate schema r ps e :
  gate_open e r = true →
  prepare schema r ps (env_log (entry Info None "received http request") e) =
    (a ← authenticate r zeroData;
     match a with
     | Return => mret Return
     | Continue data => coerce_all r schema (path_params ps data)
     end) (started e r).
Proof.
  intros Hg. unfold prepare.
  unfold mbind at 1 2 3. unfold M_bind at 1 2 3. unfold call.
  rewrite !env_call_calls, env_calls_app. simpl app.
  rewrite install_gate_run by done. simpl. unfold started, common_headers.
  destruct (installed e), (bool_decide (URLPath r = "/api/v2/install")); done.
Qed.

Lemma prepare_rejected schema r ps e tok err :
  gate_open e r = true →
  jwtToken r = (tok, Some err) →
  prepare schema r ps (env_log (entry Info None "received http request") e) =
    (Ok Return,
     env_calls (error_calls (EError err) StatusBadRequest [])
       (env_log (entry Error (Some "SessionError") "starting session")
          (started e r))).
Proof.
  intros Hg Ht. rewrite prepare_gate by done.
  unfold authenticate. rewrite Ht.
  destruct (errorAPI_run (EError err) StatusBadRequest []
              (env_log (entry Error (Some "SessionError") "starting session")
                 (started e r))) as [x Hx].
  unfold mbind, M_bind, log. rewrite Hx. done.
Qed.

Lemma DefaultHandler_returned schema handlers r ps e e' :
  prepare schema r ps (env_log (entry Info None "received http request") e)
    = (Ok Return, e') →
  DefaultHandler schema handlers r ps e = (Ok tt, e').
Proof.
  intros Hp. unfold DefaultHandler.
  unfold mbind at 1. unfold M_bind at 1. unfold log at 1.
  unfold deferred_recover. erewrite bind_ok by exact Hp. done.
Qed.

End Dispatcher.

(** ** Tokens that do not verify *)

Section InvalidToken.
Context `{RT : Runtime}.

(** C1, as the code has it.  A request whose Authorization header holds
    a token that parses but does not verify (expired, badly signed) is
    not served as an anonymous one: jwtToken returns the token together
    with an error, and the closure answers HTTP 400 with the code
    E_SERVER and the text of that error, and returns before any
    parameter is read or any handler runs. *)
Theorem invalid_token_is_rejected schema handlers r ps e tok :
  gate_open e r = true →
  (jwtToken r).1 = Some tok →
  Valid tok = false →
  ∃ err,
    jwtToken r = (Some tok, Some err) ∧
    let e' := env_calls (error_calls (EError err) StatusBadRequest [])
                (env_log (entry Error (Some "SessionError") "starting session")
                   (started e r)) in
    DefaultHandler schema handlers r ps e = (Ok tt, e') ∧
    writer e' = writer e ++ common_headers ++
                [HeaderSet "X-Content-Type-Options" "nosniff";
                 WriteHeader 400;
                 Write (envelope "E_SERVER" (Error_text err) EmptyString)].
Proof.
  intros Hg Ht Hv.
  destruct (jwtToken r) as [t [err|]] eqn:Hj; simpl in Ht; subst t.
  - exists err. split; [done|]. cbn zeta. split.
    + apply DefaultHandler_returned. by eapply prepare_rejected.
    + unfold started. simpl.
      destruct (negb (installed e) && _); simpl; by rewrite <- !app_assoc.
  - apply jwtToken_nil_error in Hj. congruence.
Qed.

End InvalidToken.

(** C1 at a token that expired long ago, signed with the right secret:
    the token parses, [Valid] is false, and the closure answers 400; the
    handler, which would have written the identity it saw, does not run. *)
Lemma expired_token_is_not_anonymous :
  let r := Example.request
             [Example.bearer (Example.claims "2" "5" 1 0 0)] [] in
  (∃ tok inner,
      jwtToken r = (Some tok, Some (ValidationError inner
                                      jwt.ValidationErrorExpired EmptyString)) ∧
      Valid tok = false) ∧
  (∃ e', prepare [] r [] Example.env0 = (Ok Return, e')) ∧
  ∃ e', DefaultHandler [] [Example.probe] r [] Example.env0 = (Ok tt, e') ∧
        writer e' = common_headers ++
                    [HeaderSet "X-Content-Type-Options" "nosniff";
                     WriteHeader 400;
                     Write (envelope "E_SERVER"
                              "token is expired by 1499999999s" EmptyString)].
Proof.
  cbn zeta. split; [|split].
  - eexists _, _. split; vm_compute; reflexivity.
  - eexists. vm_compute. reflexivity.
  - eexists. split; vm_compute; reflexivity.
Qed.

Lemma invalid_token_is_rejected_witness :
  let r := Example.request
             [Example.bearer (Example.claims "2" "5" 1 0 0)] [] in
  ∃ tok err,
    jwtToken r = (Some tok, Some err) ∧
    let e' := env_calls (error_calls (EError err) StatusBadRequest [])
                (env_log (entry Error (Some "SessionError") "starting session")
                   (started Example.env0 r)) in
    DefaultHandler [] [Example.probe] r [] Example.env0 = (Ok tt, e') ∧
    writer e' = writer Example.env0 ++ common_headers ++
                [HeaderSet "X-Content-Type-Options" "nosniff";
                 WriteHeader 400;
                 Write (envelope "E_SERVER" (Error_text err) EmptyString)].
Proof.
  cbn zeta. eexists.
  eapply (invalid_token_is_rejected [] [Example.probe]
            (Example.request [Example.bearer (Example.claims "2" "5" 1 0 0)] [])
            [] Example.env0).
  - reflexivity.
  - vm_compute. reflexivity.
  - reflexivity.
Defined.

(** ** The identity read from the claims *)

Section Identity.
Context `{RT : Runtime}.

Lemma coerce_identity r key par data e data' e' :
  coerce r key par data e = (Ok (Continue data'), e') →
  state data' = state data ∧ wallet data' = wallet data ∧
  token data' = token data.
Proof.
  unfold coerce. intros Hc.
  destruct (errorAPI_run (ECode "E_UNDEFINEVAL") StatusBadRequest
              [AString key]
              (env_log (entry Error (Some "RouteError") "undefined val") e))
    as [x1 Hx1].
  unfold mbind, M_bind, log, mret, M_ret in Hc.
  repeat case_match; simplify_eq; done.
Qed.

Lemma coerce_all_identity r schema data e data' e' :
  coerce_all r schema data e = (Ok (Continue data'), e') →
  state data' = state data ∧ wallet data' = wallet data ∧
  token data' = token data.
Proof.
  revert data e. induction schema as [|[key par] rest IH]; intros data e Hc.
  - simpl in Hc. unfold mret, M_ret in Hc. by simplify_eq.
  - simpl in Hc. unfold mbind, M_bind in Hc.
    destruct (coerce r key par data e) as [[[d1|]|v] e1] eqn:H1;
      try (unfold mret, M_ret in Hc; discriminate).
    apply coerce_identity in H1 as (E1 & E2 & E3).
    apply IH in Hc as (-> & -> & ->). done.
Qed.

Lemma path_params_identity ps data :
  state (path_params ps data) = state data ∧
  wallet (path_params ps data) = wallet data ∧
  token (path_params ps data) = token data.
Proof.
  unfold path_params.
  change (state data) with (state (set_params data ∅)).
  change (wallet data) with (wallet (set_params data ∅)).
  change (token data) with (token (set_params data ∅)).
  generalize (set_params data ∅). induction ps as [|p ps IH]; intros d.
  - done.
  - simpl. destruct (IH (set_param d p.1 (VString p.2))) as (E1 & E2 & E3).
    rewrite E1, E2, E3. done.
Qed.

(** C10.  A request whose token verifies and whose claims have an empty
    Wallet is served as an anonymous one, whatever the State claim holds:
    the identity stage leaves state and wallet at 0 and logs nothing, and
    any context the closure hands to the handlers has state 0 and
    wallet 0. *)
Theorem empty_wallet_is_anonymous schema r ps tok c :
  jwtToken r = (Some tok, None) →
  Valid tok = true →
  Claims tok = Some c →
  Wallet c = EmptyString →
  (∀ e, authenticate r zeroData e =
          (Ok (Continue (set_token zeroData (Some tok))), e)) ∧
  ∀ e data e',
    prepare schema r ps e = (Ok (Continue data), e') →
    state data = 0 ∧ wallet data = 0 ∧ token data = Some tok.
Proof.
  intros Hj Hv Hc Hw.
  assert (Ha : ∀ e, authenticate r zeroData e =
                    (Ok (Continue (set_token zeroData (Some tok))), e)).
  { intros e. unfold authenticate. rewrite Hj.
    unfold read_identity. simpl. rewrite Hv, Hc, Hw. done. }
  split; [done|].
  intros e data e' Hp. unfold prepare in Hp.
  unfold mbind, M_bind, call in Hp.
  destruct (install_gate r _) as [[[[]|]|v] e1]; try discriminate.
  rewrite Ha in Hp.
  apply coerce_all_identity in Hp as (-> & -> & ->).
  destruct (path_params_identity ps (set_token zeroData (Some tok)))
    as (E1 & E2 & E3).
  rewrite E1, E2, E3. done.
Qed.

End Identity.

Lemma empty_wallet_is_anonymous_witness :
  let r := Example.request
             [Example.bearer (Example.claims "2" "" 0 0 0)] [] in
  ∃ tok,
    jwtToken r = (Some tok, None) ∧
    (State <$> Claims tok) = Some "2" ∧
    (∀ e, authenticate r zeroData e =
            (Ok (Continue (set_token zeroData (Some tok))), e)) ∧
    ∀ e data e',
      prepare [] r [] e = (Ok (Continue data), e') →
      state data = 0 ∧ wallet data = 0 ∧ token data = Some tok.
Proof.
  cbn zeta. eexists. split; [vm_compute; reflexivity|].
  split; [reflexivity|].
  eapply (empty_wallet_is_anonymous []
            (Example.request [Example.bearer (Example.claims "2" "" 0 0 0)] [])
            []).
  - vm_compute. reflexivity.
  - reflexivity.
  - reflexivity.
  - reflexivity.
Defined.

(** ** Integer parameters *)

Lemma ParseUint_loop_not_digits s :
  all_digits s = false → ∀ n m, strconv.ParseUint_loop n s ≠ strconv.UOk m.
Proof.
  induction s as [|c s IH]; intros Hd n m; [done|].
  simpl in *. destruct (strconv.digit c) as [d|] eqn:Hc; [|done].
  rewrite bool_decide_eq_true_2 in Hd by eauto. simpl in Hd.
  repeat case_match; try done. by apply IH.
Qed.

Lemma ParseUint_not_digits s :
  (s = EmptyString ∨ all_digits s = false) →
  ∀ m, strconv.ParseUint s ≠ strconv.UOk m.
Proof.
  intros [->|Hd] m; [done|]. destruct s; [done|].
  unfold strconv.ParseUint. by apply ParseUint_loop_not_digits.
Qed.

(** Text that is no decimal number makes ParseInt return an error, with
    0 or one of the two bounds of int64 as the value. *)
Lemma ParseInt_not_numeric s :
  numeric s = false →
  ∃ v err, strconv.ParseInt s = (v, Some err) ∧
           (v = 0 ∨ v = 2 ^ 63 - 1 ∨ v = - 2 ^ 63).
Proof.
  intros Hn. destruct s as [|c0 rest].
  { eexists _, _. split; [reflexivity|by left]. }
  unfold strconv.ParseInt.
  set (body := if Ascii.eqb c0 "+" then rest
               else if Ascii.eqb c0 "-" then rest else String c0 rest).
  assert (Hb : ∀ m, strconv.ParseUint body ≠ strconv.UOk m).
  { apply ParseUint_not_digits. subst body. unfold numeric in Hn.
    destruct (Ascii.eqb c0 "+"), (Ascii.eqb c0 "-"); simpl in Hn;
      try (by right);
      (destruct (decide (rest = EmptyString)) as [->|Hne]; [by left|];
       rewrite bool_decide_eq_false_2 in Hn by done; by right). }
  destruct (strconv.ParseUint body) as [m| |]; [by destruct (Hb m)| |].
  - eexists _, _. eauto.
  - destruct (Ascii.eqb c0 "-"); eexists _, _; split; eauto.
Qed.

Section IntegerKind.
Context `{RT : Runtime}.

(** C2, as the code has it.  An integer parameter whose text is no
    decimal number (and is not empty where the parameter is required)
    does not stop the request: the turn of the loop logs one entry at
    level Error and goes on, and the parameter is present in the typed
    map, holding the int64 that ParseInt returned beside its error. *)
Theorem non_numeric_integer_is_stored r key par data e :
  kind par = pInt64 →
  numeric (FormValue r key) = false →
  required par = false ∨ FormValue r key ≠ EmptyString →
  ∃ v err,
    strconv.ParseInt (FormValue r key) = (v, Some err) ∧
    (v = 0 ∨ v = 2 ^ 63 - 1 ∨ v = - 2 ^ 63) ∧
    coerce r key par data e =
      (Ok (Continue (set_param data key (VInt64 v))),
       env_log (entry Error (Some "ConvertionError")
                  "converting http parameter to int") e) ∧
    params (set_param data key (VInt64 v)) !! key = Some (VInt64 v).
Proof.
  intros Hk Hn Hr.
  destruct (ParseInt_not_numeric _ Hn) as (v & err & Hp & Hv).
  exists v, err. split; [done|]. split; [done|]. split.
  - unfold coerce. fold (required par). fold (kind par).
    assert ((required par && (len (FormValue r key) =? 0)) = false) as ->.
    { destruct Hr as [->|Hne]; [done|].
      destruct (FormValue r key); [done|]. by rewrite andb_false_r. }
    rewrite Hk, Hp. done.
  - simpl. apply lookup_insert_eq.
Qed.

End IntegerKind.

(** C2 at the text "abc" for the integer parameter "n": the context the
    closure hands to the handlers holds n = 0, so n is not absent, and
    the entry logged is at level Error, not Warning. *)
Lemma non_numeric_integer_is_not_absent :
  let r := Example.request [] [("n", ["abc"])] in
  ∃ data e',
    prepare [("n", pInt64)] r [] Example.env0 = (Ok (Continue data), e') ∧
    params data !! "n" = Some (VInt64 0) ∧
    params data !! "n" ≠ None ∧
    logged e' = [entry Error (Some "ConvertionError")
                   "converting http parameter to int"].
Proof.
  cbn zeta. eexists _, _. split; [vm_compute; reflexivity|].
  split; [|split]; [vm_compute; reflexivity|done|reflexivity].
Qed.

Lemma non_numeric_integer_is_stored_witness :
  let r := Example.request [] [("n", ["abc"])] in
  ∃ v err,
    strconv.ParseInt (FormValue r "n") = (v, Some err) ∧
    (v = 0 ∨ v = 2 ^ 63 - 1 ∨ v = - 2 ^ 63) ∧
    coerce r "n" pInt64 zeroData Example.env0 =
      (Ok (Continue (set_param zeroData "n" (VInt64 v))),
       env_log (entry Error (Some "ConvertionError")
                  "converting http parameter to int") Example.env0) ∧
    params (set_param zeroData "n" (VInt64 v)) !! "n" = Some (VInt64 v).
Proof.
  cbn zeta.
  apply (non_numeric_integer_is_stored
           (Example.request [] [("n", ["abc"])]) "n" pInt64 zeroData
           Example.env0).
  - reflexivity.
  - vm_compute. reflexivity.
  - right. vm_compute. discriminate.
Defined.

(** ** The ecosystem resolver *)

Section Ecosystem.
Context `{RT : Runtime}.

(** What checkEcosystem does when storage fails: it answers through
    errorAPI with the status it passes there, 400. *)
Lemma checkEcosystem_storage_error data e v count err :
  params data !! "ecosystem" = Some (VInt64 v) →
  0 < v →
  next_id e "system_states" = (count, Some err) →
  ∃ x,
    checkEcosystem data e =
      (Ok (0, Some x),
       env_calls (error_calls (EError err) StatusBadRequest [])
         (env_log (entry Error (Some "DBError") "getting next id system states")
            (env_query "system_states" e))).
Proof.
  intros Hp Hv Hn. unfold checkEcosystem. rewrite Hp.
  assert ((0 <? v) = true) as -> by lia.
  destruct (errorAPI_run (EError err) StatusBadRequest []
              (env_log (entry Error (Some "DBError")
                          "getting next id system states")
                 (env_query "system_states" e))) as [x Hx].
  exists x. unfold mbind, M_bind, GetNextID, log. rewrite Hn, Hx. done.
Qed.

(** C4.  With an ecosystem parameter that is not positive, the resolver
    returns the partition of the session and leaves the environment as
    it is, so storage is not asked.  With a positive one that is not
    below the counter storage gives, it asks storage once, returns an
    error, and answers HTTP 400 with the code E_ECOSYSTEM, the id among
    the params of the envelope and in its message (the code being in the
    registry). *)
Theorem checkEcosystem_declared data e v :
  params data !! "ecosystem" = Some (VInt64 v) →
  (v ≤ 0 → checkEcosystem data e = (Ok (state data, None), e)) ∧
  (0 < v →
   ∀ count tmpl,
     next_id e "system_states" = (count, None) →
     count ≤ v →
     errors !! "E_ECOSYSTEM" = Some tmpl →
     ∃ err e',
       checkEcosystem data e = (Ok (0, Some err), e') ∧
       writer e' = writer e ++
                   [HeaderSet "X-Content-Type-Options" "nosniff";
                    WriteHeader 400;
                    Write (envelope "E_ECOSYSTEM"
                             (Sprintf tmpl [AInt64 v])
                             (", " +:+ quoted "params" +:+ ": [" +:+
                              quoted (pretty v) +:+ "]"))] ∧
       queries e' = queries e ++ ["system_states"]).
Proof.
  intros Hp. split.
  - intros Hv. unfold checkEcosystem. rewrite Hp.
    assert ((0 <? v) = false) as -> by lia. done.
  - intros Hv count tmpl Hn Hc Hr. unfold checkEcosystem. rewrite Hp.
    assert ((0 <? v) = true) as -> by lia.
    destruct (errorAPI_run (ECode "E_ECOSYSTEM") StatusBadRequest [AInt64 v]
                (env_log (entry Error None "state_id is larger then max count")
                   (env_query "system_states" e))) as [x Hx].
    exists x. eexists.
    unfold mbind, M_bind, GetNextID, log. rewrite Hn.
    assert ((count <=? v) = true) as -> by lia. rewrite Hx.
    split; [reflexivity|].
    unfold error_calls, error_fields. rewrite Hr. simpl. done.
Qed.

End Ecosystem.

Lemma checkEcosystem_declared_witness :
  let own := set_param (set_identity zeroData 2 5) "ecosystem" (VInt64 0) in
  let far := set_param (set_identity zeroData 2 5) "ecosystem" (VInt64 7) in
  checkEcosystem own Example.env0 = (Ok (2, None), Example.env0) ∧
  ∃ err e',
    checkEcosystem far Example.env0 = (Ok (0, Some err), e') ∧
    writer e' = [HeaderSet "X-Content-Type-Options" "nosniff";
                 WriteHeader 400;
                 Write (envelope "E_ECOSYSTEM"
                          (Sprintf "Ecosystem %d doesn't exist" [AInt64 7])
                          (", " +:+ quoted "params" +:+ ": [" +:+
                           quoted "7" +:+ "]"))] ∧
    queries e' = ["system_states"].
Proof.
  cbn zeta. split.
  - apply (checkEcosystem_declared
             (set_param (set_identity zeroData 2 5) "ecosystem" (VInt64 0))
             Example.env0 0); [reflexivity|lia].
  - apply (checkEcosystem_declared
             (set_param (set_identity zeroData 2 5) "ecosystem" (VInt64 7))
             Example.env0 7 eq_refl) with (count := 3);
      [lia|reflexivity|lia|reflexivity].
Defined.

(** C3 at a storage layer that refuses the connection: the resolver
    answers with status 400 where the claim has 500.  The envelope has
    the code E_SERVER. *)
Lemma storage_error_answers_400 :
  let data := set_param zeroData "ecosystem" (VInt64 5) in
  ∃ err e',
    checkEcosystem data Example.env_down = (Ok (0, Some err), e') ∧
    writer e' = [HeaderSet "X-Content-Type-Options" "nosniff";
                 WriteHeader 400;
                 Write (envelope "E_SERVER" "connection refused" EmptyString)] ∧
    (WriteHeader 500 ∉ writer e') ∧
    logged e' = [entry Error (Some "DBError") "getting next id system states"].
Proof.
  cbn zeta. eexists _, _. split; [vm_compute; reflexivity|].
  split; [vm_compute; reflexivity|]. split; [|reflexivity].
  cbn. rewrite !elem_of_cons, elem_of_nil.
  intros [?|[?|[?|[]]]]; discriminate.
Qed.

(** ** The chain of handlers *)

Section Chain.
Context `{RT : Runtime}.

Lemma run_handlers_succeed hs r data e data' e' :
  all_succeed hs r data e = Some (data', e') →
  run_handlers hs r data e = (Ok (Continue data'), e').
Proof.
  revert data e. induction hs as [|h hs IH]; intros data e Hs; simpl in *.
  - by simplify_eq.
  - unfold mbind, M_bind.
    destruct (h r data e) as [[[[err|] d1]|v] e1]; try done. by apply IH.
Qed.

Lemma run_handlers_first_error pre h post r data e data' e' err data'' e'' :
  all_succeed pre r data e = Some (data', e') →
  h r data' e' = (Ok (Some err, data''), e'') →
  run_handlers (pre ++ h :: post) r data e = (Ok Return, e'').
Proof.
  revert data e. induction pre as [|h0 pre IH]; intros data e Hs Hh; simpl in *.
  - simplify_eq. unfold mbind, M_bind. by rewrite Hh.
  - unfold mbind, M_bind.
    destruct (h0 r data e) as [[[[err0|] d1]|v] e1]; try done. by apply IH.
Qed.


Lemma respond_returns data e : ∃ e', respond data e = (Ok tt, e').
Proof.
  unfold respond. destruct (Marshal (result data)) as [js [err|]].
  - destruct (errorAPI_run (EError err) StatusInternalServerError []
                (env_log (entry Error (Some "JSONMarshallError")
                            "marhsalling http response to json") e))
      as [x Hx].
    unfold mbind, M_bind, log. rewrite Hx. by eexists.
  - by eexists.
Qed.

(** The closure once [prepare] has handed a context on. *)
Lemma DefaultHandler_prepared schema handlers r ps e data e1 :
  prepare schema r ps (env_log (entry Info None "received http request") e)
    = (Ok (Continue data), e1) →
  DefaultHandler schema handlers r ps e =
    match run_handlers handlers r data e1 with
    | (Ok Return, e2) => (Ok tt, e2)
    | (Ok (Continue data'), e2) => respond data' e2
    | (Panic v, e2) => (Ok tt, recovered e2)
    end.
Proof.
  intros Hp. unfold DefaultHandler.
  unfold mbind at 1. unfold M_bind at 1. unfold log at 1.
  unfold deferred_recover. erewrite bind_ok by exact Hp.
  unfold mbind at 1. unfold M_bind at 1.
  destruct (run_handlers handlers r data e1) as [[[d2|]|v] e2]; try done.
  - destruct (respond_returns d2 e2) as [e3 ->]. done.
  - destruct (errorAPI_run (ECode "E_RECOVERED") StatusInternalServerError []
                (env_log (entry Error (Some "PanicRecoveredError")
                            "panic recovered error") e2)) as [x Hx].
    unfold mbind, M_bind, log. rewrite Hx. done.
Qed.

(** C5.  The handlers run in the order of the list, each on the context
    and the environment the one before left.  When the handlers of [pre]
    have returned nil and [h] returns an error, the closure returns with
    the environment exactly as [h] left it: whatever the handlers of
    [post] are, none of them runs, and nothing is marshalled or written
    after [h].  When every handler returns nil, the closure ends with
    [respond] on what the last one left. *)
Theorem chain_stops_at_first_error schema pre h post r ps e data e1 data' e2 :
  prepare schema r ps (env_log (entry Info None "received http request") e)
    = (Ok (Continue data), e1) →
  all_succeed pre r data e1 = Some (data', e2) →
  (∀ err data'' e3,
     h r data' e2 = (Ok (Some err, data''), e3) →
     DefaultHandler schema (pre ++ h :: post) r ps e = (Ok tt, e3)) ∧
  DefaultHandler schema pre r ps e = respond data' e2.
Proof.
  intros Hp Hs. split.
  - intros err data'' e3 Hh.
    rewrite (DefaultHandler_prepared _ _ _ _ _ _ _ Hp).
    by erewrite run_handlers_first_error.
  - rewrite (DefaultHandler_prepared _ _ _ _ _ _ _ Hp).
    by erewrite run_handlers_succeed.
Qed.


End Chain.

Lemma chain_stops_at_first_error_witness :
  let r := Example.request [] [] in
  (∃ e3,
     DefaultHandler []
       ([Example.probe] ++ Example.failing :: [Example.panicking])
       r [] Example.env0 = (Ok tt, e3) ∧
     writer e3 = common_headers ++
                 [HeaderSet "X-Content-Type-Options" "nosniff";
                  WriteHeader 500;
                  Write (envelope "E_SERVER" "Server error" EmptyString)]) ∧
  ∃ data',
    DefaultHandler [] [Example.probe] r [] Example.env0 =
      respond data' (started Example.env0 r) ∧
    result data' = "0/0".
Proof.
  cbn zeta.
  edestruct (chain_stops_at_first_error [] [Example.probe] Example.failing
               [Example.panicking] (Example.request [] []) [] Example.env0)
    as [Hfail Hall].
  - vm_compute. reflexivity.
  - vm_compute. reflexivity.
  - split.
    + eexists. split.
      * eapply Hfail. vm_compute. reflexivity.
      * vm_compute. reflexivity.
    + eexists. split; [exact Hall|reflexivity].
Defined.


(** ** The loop over the schema *)

Lemma Decode_error s :
  (hex.Decode s).2 = None ↔
  hex.all_hex s = true ∧ Nat.odd (String.length s) = false.
Proof.
  assert (Hboth : ∀ s,
    ((hex.Decode s).2 = None ↔
     hex.all_hex s = true ∧ Nat.odd (String.length s) = false) ∧
    ∀ c, ((hex.Decode (String c s)).2 = None ↔
          hex.all_hex (String c s) = true ∧
          Nat.odd (String.length (String c s)) = false)).
  { clear s. induction s as [|q s [IH1 IH2]].
    - split; [done|]. intros c. simpl.
      destruct (hex.fromHexChar c); simpl; split; intros H; try done;
        destruct H; done.
    - split; [apply IH2|]. intros p.
      change (hex.Decode (String p (String q s))) with
        (match hex.fromHexChar p, hex.fromHexChar q with
         | None, _ => ([], Some (InvalidByteError p))
         | Some _, None => ([], Some (InvalidByteError q))
         | Some a, Some b =>
             let '(bs, e) := hex.Decode s in (hex.mkbyte a b :: bs, e)
         end).
      change (Nat.odd (String.length (String p (String q s))))
        with (Nat.odd (String.length s)).
      simpl hex.all_hex.
      destruct (hex.fromHexChar p) as [a|], (hex.fromHexChar q) as [b|];
        simpl; try (split; [done|intros [? ?]; done]).
      destruct (hex.Decode s) as [bs err] eqn:Hd. simpl in *.
      exact IH1. }
  apply Hboth.
Qed.

Lemma DecodeString_malformed s :
  malformed_hex s = true → is_Some (hex.DecodeString s).2.
Proof.
  intros Hm. unfold hex.DecodeString.
  destruct (hex.Decode s) as [bs [err|]] eqn:Hd; simpl; [by eexists|].
  assert (Hn : (hex.Decode s).2 = None) by (by rewrite Hd).
  apply Decode_error in Hn as [Ha Ho]. unfold malformed_hex in Hm.
  rewrite Ha, Ho in Hm. done.
Qed.

Section Schema.
Context `{RT : Runtime}.

(** A failing turn answers 400 through errorAPI and returns. *)
Lemma coerce_fails r key par data e :
  fails r key par = true →
  ∃ e' body,
    coerce r key par data e = (Ok Return, e') ∧
    writer e' = writer e ++
                [HeaderSet "X-Content-Type-Options" "nosniff";
                 WriteHeader 400; Write body].
Proof.
  unfold fails, coerce. fold (required par). fold (kind par). intros Hf.
  destruct (required par && (len (FormValue r key) =? 0)) eqn:Hreq.
  - destruct (errorAPI_run (ECode "E_UNDEFINEVAL") StatusBadRequest
                [AString key]
                (env_log (entry Error (Some "RouteError") "undefined val") e))
      as [x Hx].
    unfold mbind, M_bind, log. rewrite Hx. unfold error_calls.
    destruct (error_fields _ _) as [[c m] p].
    eexists _, _. split; reflexivity.
  - simpl in Hf. apply andb_true_iff in Hf as [Hk Hd].
    apply Z.eqb_eq in Hk. apply bool_decide_eq_true in Hd as [err Hd].
    rewrite Hk. simpl.
    destruct (hex.DecodeString (FormValue r key)) as [bin o]. simpl in Hd.
    subst o.
    destruct (errorAPI_run (EError err) StatusBadRequest []
                (env_log (entry Error (Some "ConvertionError")
                            "decoding http parameter from hex") e))
      as [x Hx].
    unfold mbind, M_bind, log. rewrite Hx.
    eexists _, _. split; reflexivity.
Qed.

(** A turn that does not fail goes on and leaves the writer alone. *)
Lemma coerce_passes r key par data e :
  fails r key par = false →
  ∃ data' e',
    coerce r key par data e = (Ok (Continue data'), e') ∧
    writer e' = writer e.
Proof.
  unfold fails, coerce. fold (required par). fold (kind par). intros Hf.
  apply orb_false_iff in Hf as [-> Hh].
  destruct (kind par =? pInt64) eqn:Hi.
  { destruct (strconv.ParseInt (FormValue r key)) as [v [err|]];
      by eexists _, _. }
  destruct (kind par =? pHex) eqn:Hx.
  { simpl in Hh. apply bool_decide_eq_false in Hh.
    destruct (hex.DecodeString (FormValue r key)) as [bin [err|]];
      [destruct Hh; by eexists|]. by eexists _, _. }
  destruct (kind par =? pString); by eexists _, _.
Qed.

(** The loop runs up to the first failing entry and returns there. *)
Lemma coerce_all_first_failure r pre key par post data e :
  (∀ k p, (k, p) ∈ pre → fails r k p = false) →
  ∃ data1 e1,
    writer e1 = writer e ∧
    coerce_all r (pre ++ (key, par) :: post) data e =
      (s ← coerce r key par data1; 
       match s with
       | Return => mret Return
       | Continue data' => coerce_all r post data'
       end) e1.
Proof.
  revert data e. induction pre as [|[k p] pre IH]; intros data e Hpre.
  - by eexists _, _.
  - destruct (coerce_passes r k p data e) as (d1 & e1 & Hc & Hw).
    { apply Hpre. left. }
    destruct (IH d1 e1) as (d2 & e2 & Hw2 & Hall).
    { intros k' p' Hin. apply Hpre. by right. }
    exists d2, e2. split; [congruence|].
    simpl. unfold mbind at 1. unfold M_bind at 1. rewrite Hc. done.
Qed.

Lemma first_failure r (schema : list (string * Z)) key par :
  (key, par) ∈ schema → fails r key par = true →
  ∃ pre k p post,
    schema = pre ++ (k, p) :: post ∧
    (∀ k' p', (k', p') ∈ pre → fails r k' p' = false) ∧
    fails r k p = true.
Proof.
  induction schema as [|[k0 p0] rest IH]; intros Hin Hf.
  - by apply elem_of_nil in Hin.
  - destruct (fails r k0 p0) eqn:H0.
    + exists [], k0, p0, rest. split; [done|]. split; [|done].
      intros k' p' Hin'. by apply elem_of_nil in Hin'.
    + apply elem_of_cons in Hin as [Heq|Hin]; [simplify_eq; congruence|].
      destruct (IH Hin Hf) as (pre & k & p & post & -> & Hpre & Hkp).
      exists ((k0, p0) :: pre), k, p, post. split; [done|]. split; [|done].
      intros k' p' Hin'. apply elem_of_cons in Hin' as [Heq|Hin'].
      * by simplify_eq.
      * by apply Hpre.
Qed.

(** The identity stage never stops the request and leaves the writer
    alone. *)
Lemma read_identity_run data e :
  ∃ data' e', read_identity data e = (Ok data', e') ∧ writer e' = writer e.
Proof.
  unfold read_identity.
  repeat case_match; by eexists _, _.
Qed.

(** With the gate open and a token accepted, a schema with a failing
    entry makes [prepare] return after one errorAPI answer with status
    400; [key], [par] is the first failing entry the loop meets. *)
Lemma prepare_first_failure r ps e tok pre key par post :
  gate_open e r = true →
  jwtToken r = (tok, None) →
  (∀ k p, (k, p) ∈ pre → fails r k p = false) →
  fails r key par = true →
  ∃ data1 e1 e' body,
    writer e1 = writer e ++ common_headers ∧
    coerce r key par data1 e1 = (Ok Return, e') ∧
    prepare (pre ++ (key, par) :: post) r ps
      (env_log (entry Info None "received http request") e) = (Ok Return, e') ∧
    writer e' = writer e ++ common_headers ++
                [HeaderSet "X-Content-Type-Options" "nosniff";
                 WriteHeader 400; Write body].
Proof.
  intros Hg Ht Hpre Hf. rewrite prepare_gate by done.
  unfold authenticate. rewrite Ht.
  destruct (read_identity_run (set_token zeroData tok) (started e r))
    as (d0 & e0 & Hr & Hw0).
  unfold mbind at 1 2. unfold M_bind at 1 2. rewrite Hr.
  unfold mret at 1. unfold M_ret at 1.
  destruct (coerce_all_first_failure r pre key par post (path_params ps d0) e0
              Hpre) as (d1 & e1 & Hw1 & ->).
  destruct (coerce_fails r key par d1 e1 Hf) as (e' & body & Hc & Hw').
  exists d1, e1, e', body.
  assert (Hs : writer (started e r) = writer e ++ common_headers).
  { unfold started. destruct (negb (installed e) && _); done. }
  split; [congruence|]. split; [done|].
  split; [by erewrite bind_ok by exact Hc|].
  rewrite Hw', Hw1, Hw0, Hs. by rewrite <- app_assoc.
Qed.

End Schema.

Section Rejections.
Context `{RT : Runtime}.

Lemma coerce_missing r key par data e :
  required par = true →
  FormValue r key = EmptyString →
  coerce r key par data e =
    (Ok Return,
     env_calls (error_calls (ECode "E_UNDEFINEVAL") StatusBadRequest
                  [AString key])
       (env_log (entry Error (Some "RouteError") "undefined val") e)).
Proof.
  intros Hr Hv. unfold coerce. fold (required par). rewrite Hr, Hv. simpl.
  destruct (errorAPI_run (ECode "E_UNDEFINEVAL") StatusBadRequest
              [AString key]
              (env_log (entry Error (Some "RouteError") "undefined val") e))
    as [x Hx].
  unfold mbind, M_bind, log. rewrite Hx. done.
Qed.

(** A schema with a failing entry: the closure answers 400 once and
    returns, whatever the handlers are. *)
Lemma failing_entry_is_rejected schema r ps e tok key par :
  gate_open e r = true →
  jwtToken r = (tok, None) →
  (key, par) ∈ schema →
  fails r key par = true →
  ∃ e' body,
    prepare schema r ps (env_log (entry Info None "received http request") e)
      = (Ok Return, e') ∧
    (∀ handlers, DefaultHandler schema handlers r ps e = (Ok tt, e')) ∧
    writer e' = writer e ++ common_headers ++
                [HeaderSet "X-Content-Type-Options" "nosniff";
                 WriteHeader 400; Write body].
Proof.
  intros Hg Ht Hin Hf.
  destruct (first_failure r schema key par Hin Hf)
    as (pre & k & p & post & -> & Hpre & Hkp).
  destruct (prepare_first_failure r ps e tok pre k p post Hg Ht Hpre Hkp)
    as (d1 & e1 & e' & body & _ & _ & Hp & Hw).
  exists e', body. split; [done|]. split; [|done].
  intros handlers. by apply DefaultHandler_returned.
Qed.

(** C8, as the code has it.  With the gate open and a token accepted, a
    required entry of the schema whose form value is empty makes the
    closure answer HTTP 400 once and return before any handler runs.
    The envelope is the one of the first failing entry the loop meets:
    when no entry met before this one fails, it has the code
    E_UNDEFINEVAL and, the code being in the registry, the key in its
    message and as its params. *)
Theorem missing_required_is_rejected schema r ps e tok key par :
  gate_open e r = true →
  jwtToken r = (tok, None) →
  (key, par) ∈ schema →
  required par = true →
  FormValue r key = EmptyString →
  ∃ e' body,
    (∀ handlers, DefaultHandler schema handlers r ps e = (Ok tt, e')) ∧
    writer e' = writer e ++ common_headers ++
                [HeaderSet "X-Content-Type-Options" "nosniff";
                 WriteHeader 400; Write body] ∧
    ∀ pre post tmpl,
      schema = pre ++ (key, par) :: post →
      (∀ k p, (k, p) ∈ pre → fails r k p = false) →
      errors !! "E_UNDEFINEVAL" = Some tmpl →
      body = envelope "E_UNDEFINEVAL" (Sprintf tmpl [AString key])
               (", " +:+ quoted "params" +:+ ": [" +:+ quoted key +:+ "]").
Proof.
  intros Hg Ht Hin Hr Hv.
  assert (Hf : fails r key par = true).
  { unfold fails. by rewrite Hr, Hv. }
  destruct (failing_entry_is_rejected schema r ps e tok key par Hg Ht Hin Hf)
    as (e' & body & Hp & Hd & Hw).
  exists e', body. split; [done|]. split; [done|].
  intros pre post tmpl -> Hpre Hreg.
  destruct (prepare_first_failure r ps e tok pre key par post Hg Ht Hpre Hf)
    as (d1 & e1 & e'' & body' & Hw1 & Hc & Hp' & _).
  rewrite Hp in Hp'. injection Hp' as <-.
  rewrite coerce_missing in Hc by done. injection Hc as <-.
  revert Hw. unfold error_calls, error_fields. rewrite Hreg. simpl.
  rewrite Hw1, <- app_assoc. intros Hw.
  apply app_inv_head in Hw. apply (f_equal last) in Hw.
  cbn [last common_headers app] in Hw. by injection Hw as <-.
Qed.

(** C9, as the code has it.  For an entry of the hex kind: with the
    gate open and a token accepted, text that is no hexadecimal string,
    or no text where the entry is required, makes the closure answer
    HTTP 400 once and return before any handler runs; no text where the
    entry is optional is no failure, the turn of the loop stores the
    empty byte string and goes on. *)
Theorem bad_hex_is_rejected schema r ps e tok key par :
  kind par = pHex →
  (gate_open e r = true →
   jwtToken r = (tok, None) →
   (key, par) ∈ schema →
   malformed_hex (FormValue r key) = true
   ∨ (FormValue r key = EmptyString ∧ required par = true) →
   ∃ e' body,
     (∀ handlers, DefaultHandler schema handlers r ps e = (Ok tt, e')) ∧
     writer e' = writer e ++ common_headers ++
                 [HeaderSet "X-Content-Type-Options" "nosniff";
                  WriteHeader 400; Write body]) ∧
  (required par = false →
   FormValue r key = EmptyString →
   ∀ data e0,
     coerce r key par data e0 =
       (Ok (Continue (set_param data key (VBytes []))), e0)).
Proof.
  intros Hk. split.
  - intros Hg Ht Hin Hbad.
    assert (Hf : fails r key par = true).
    { unfold fails. destruct Hbad as [Hm|[Hv Hr]].
      - apply DecodeString_malformed in Hm.
        rewrite Hk, (bool_decide_eq_true_2 _ Hm). simpl. apply orb_true_r.
      - by rewrite Hr, Hv. }
    destruct (failing_entry_is_rejected schema r ps e tok key par Hg Ht Hin Hf)
      as (e' & body & _ & Hd & Hw).
    by exists e', body.
  - intros Hr Hv data e0. unfold coerce. fold (required par). fold (kind par).
    rewrite Hr, Hk, Hv. done.
Qed.

End Rejections.

(** C8 at a schema with a hex entry "sig" and a required string entry
    "name", met in this order, and a request with sig = zz and no name:
    the answer is the one of the hex entry, with the code E_SERVER; the
    missing key is not in it. *)
Lemma missing_key_is_not_always_named :
  let r := Example.request [] [("sig", ["zz"])] in
  let schema := [("sig", pHex); ("name", pString)] in
  required pString = true ∧
  FormValue r "name" = EmptyString ∧
  ∃ e',
    DefaultHandler schema [Example.probe] r [] Example.env0 = (Ok tt, e') ∧
    writer e' = common_headers ++
                [HeaderSet "X-Content-Type-Options" "nosniff";
                 WriteHeader 400;
                 Write (envelope "E_SERVER" "encoding/hex: invalid byte: z"
                          EmptyString)].
Proof.
  cbn zeta. split; [reflexivity|]. split; [reflexivity|].
  eexists. split; vm_compute; reflexivity.
Qed.

Lemma missing_required_is_rejected_witness :
  let r := Example.request [] [("sig", ["00ff"])] in
  let schema := [("sig", pHex); ("name", pString)] in
  ∃ e',
    (∀ handlers, DefaultHandler schema handlers r [] Example.env0 = (Ok tt, e')) ∧
    writer e' = common_headers ++
                [HeaderSet "X-Content-Type-Options" "nosniff";
                 WriteHeader 400;
                 Write (envelope "E_UNDEFINEVAL"
                          (Sprintf "Value %s is undefined" [AString "name"])
                          (", " +:+ quoted "params" +:+ ": [" +:+
                           quoted "name" +:+ "]"))].
Proof.
  cbn zeta.
  destruct (missing_required_is_rejected
              [("sig", pHex); ("name", pString)]
              (Example.request [] [("sig", ["00ff"])]) [] Example.env0
              None "name" pString) as (e' & body & Hd & Hw & Hb).
  - reflexivity.
  - reflexivity.
  - right. left.
  - reflexivity.
  - reflexivity.
  - exists e'. split; [exact Hd|]. rewrite Hw.
    rewrite (Hb [("sig", pHex)] [] "Value %s is undefined"); [reflexivity|reflexivity| |reflexivity].
    intros k p Hin. apply list_elem_of_singleton in Hin. injection Hin as -> ->.
    vm_compute. reflexivity.
Defined.

(** C9 at an optional hex entry "pubkey" and a request without it: the
    closure does not answer 400; the handler runs, with the empty byte
    string for pubkey in the typed map. *)
Lemma empty_optional_hex_is_accepted :
  let r := Example.request [] [] in
  let schema := [("pubkey", pHex + pOptional)] in
  (∃ data e',
     prepare schema r [] Example.env0 = (Ok (Continue data), e') ∧
     params data !! "pubkey" = Some (VBytes [])) ∧
  ∃ e',
    DefaultHandler schema [Example.probe] r [] Example.env0 = (Ok tt, e') ∧
    writer e' = common_headers ++ [Write "0/0"].
Proof.
  cbn zeta. split.
  - eexists _, _. split; vm_compute; reflexivity.
  - eexists. split; vm_compute; reflexivity.
Qed.

Lemma bad_hex_is_rejected_witness :
  let r := Example.request [] [("sig", ["zz"])] in
  let schema := [("sig", pHex)] in
  (∃ e' body,
     (∀ handlers, DefaultHandler schema handlers r [] Example.env0 = (Ok tt, e')) ∧
     writer e' = writer Example.env0 ++ common_headers ++
                 [HeaderSet "X-Content-Type-Options" "nosniff";
                  WriteHeader 400; Write body]) ∧
  ∀ data e0,
    coerce (Example.request [] []) "pubkey" (pHex + pOptional) data e0 =
      (Ok (Continue (set_param data "pubkey" (VBytes []))), e0).
Proof.
  cbn zeta. split.
  - apply (bad_hex_is_rejected [("sig", pHex)]
             (Example.request [] [("sig", ["zz"])]) [] Example.env0 None
             "sig" pHex eq_refl).
    + reflexivity.
    + reflexivity.
    + left.
    + left. vm_compute. reflexivity.
  - apply (bad_hex_is_rejected [] (Example.request [] []) [] Example.env0 None
             "pubkey" (pHex + pOptional) eq_refl); reflexivity.
Defined.

(** ** Issuing a token and verifying it *)

Lemma app_cons x (a s : string) : String x a +:+ s = String x (a +:+ s).
Proof. reflexivity. Qed.

Lemma app_empty (s : string) : EmptyString +:+ s = s.
Proof. reflexivity. Qed.

Lemma app_assoc_string (a b c : string) : (a +:+ b) +:+ c = a +:+ (b +:+ c).
Proof.
  induction a as [|x a IH]; [done|]. by rewrite !app_cons, IH.
Qed.

Lemma split_aux_dotless a :
  dotless a = true → split_aux "." a = (a, []).
Proof.
  induction a as [|x a IH]; simpl; [done|]. intros Hd.
  apply andb_true_iff in Hd as [Hx Ha]. rewrite (IH Ha).
  by destruct (Ascii.eqb x ".").
Qed.

Lemma split_aux_dot a s :
  dotless a = true →
  split_aux "." (a +:+ String "." s) = (a, Split s ".").
Proof.
  induction a as [|x a IH]; intros Hd.
  - rewrite app_empty. unfold Split. simpl. by destruct (split_aux "." s).
  - simpl in Hd. apply andb_true_iff in Hd as [Hx Ha].
    rewrite app_cons. simpl. rewrite (IH Ha).
    by destruct (Ascii.eqb x ".").
Qed.

(** Three pieces without a dot, joined by dots, split into the three. *)
Lemma split_dot_three a b c :
  dotless a = true → dotless b = true → dotless c = true →
  split_dot (Join [Join [a; b] "."; c] ".") = [a; b; c].
Proof.
  intros Ha Hb Hc. unfold split_dot, Split. simpl Join.
  rewrite !app_assoc_string, !app_cons, !app_empty.
  rewrite (split_aux_dot a _ Ha). unfold Split.
  rewrite (split_aux_dot b _ Hb). unfold Split.
  by rewrite (split_aux_dotless c Hc).
Qed.

Lemma GetSigningMethod_HS256 :
  jwt.GetSigningMethod "HS256" = Some (SigningMethodHMAC SHA256).
Proof. vm_compute. reflexivity. Qed.

Section RoundTrip.
Context `{RT : Runtime}.

Lemma jwtToken_bearer r s :
  Header_Get r "Authorization" = jwtPrefix +:+ s →
  jwtToken r = jwt.ParseWithClaims s zeroClaims keyFunc.
Proof.
  intros Hr. unfold jwtToken. rewrite Hr.
  change (len (jwtPrefix +:+ s) =? 0) with false.
  change (HasPrefix (jwtPrefix +:+ s) jwtPrefix) with true.
  done.
Qed.

(** The time checks pass exactly when no time field fails. *)
Lemma Valid_claims_None c : jwt.Valid_claims c = None ↔ in_time c.
Proof.
  unfold jwt.Valid_claims, in_time, jwt.verifyExp, jwt.verifyIat,
    jwt.verifyNbf.
  destruct (ExpiresAt c =? 0) eqn:E1, (IssuedAt c =? 0) eqn:E2,
    (NotBefore c =? 0) eqn:E3; simpl;
    repeat match goal with
           | |- context [?a <=? ?b] => destruct (Z.leb_spec a b); simpl
           end;
    (split; [intros Hv; try discriminate; lia | intros Hv; try done; lia]).
Qed.

Lemma Valid_claims_error c err :
  jwt.Valid_claims c = Some err →
  ∃ inner flags, err = ValidationError inner flags EmptyString ∧ flags ≠ 0.
Proof.
  unfold jwt.Valid_claims. intros Hv.
  match type of Hv with (if ?b then _ else _) = _ =>
    destruct b eqn:Hb; [discriminate|] end.
  injection Hv as <-. eexists _, _. split; [done|].
  by apply Z.eqb_neq in Hb.
Qed.

(** What jwtToken makes of the header jwtSave set for [c]: the token of
    the three segments, valid or not as the time checks on [c] say. *)
Lemma jwtToken_issued (c : JWTClaims) :
  codec_faithful c →
  ∃ signed,
    jwt.SignedString (jwt.NewWithClaims jwt.SigningMethodHS256 c) jwtSecret
      = (signed, None) ∧
    ∀ r, Header_Get r "Authorization" = jwtPrefix +:+ signed →
         ∃ tok, Claims tok = Some c ∧
           jwtToken r =
             match jwt.Valid_claims (Standard c) with
             | None => (Some (jwt.with_signature tok (Signature tok) true), None)
             | Some err =>
                 (Some (jwt.with_signature tok (Signature tok) false),
                  Some err)
             end.
Proof.
  intros (hb & cb & hd & Hmh & Hmc & Hdh & Hdc & Hdm & Huh & Halg & Huc
          & Hlh & Hlc & Hlm).
  cbn zeta in *.
  set (A := EncodeSegment hb) in *. set (B := EncodeSegment cb) in *.
  set (mac := hmacSum SHA256 jwtSecret (Join [A; B] ".")) in *.
  set (C := EncodeSegment mac) in *.
  assert (Hs : jwt.SignedString
                 (jwt.NewWithClaims jwt.SigningMethodHS256 c) jwtSecret
               = (Join [Join [A; B] "."; C] ".", None)).
  { unfold jwt.SignedString, jwt.SigningString. rewrite Hmh.
    simpl Claims. simpl default. rewrite Hmc. done. }
  exists (Join [Join [A; B] "."; C] "."). split; [done|].
  intros r Hr. rewrite (jwtToken_bearer _ _ Hr).
  unfold jwt.ParseWithClaims, jwt.ParseUnverified.
  rewrite (split_dot_three A B C Hlh Hlc Hlm).
  rewrite Hdh, Huh, Hdc, Huc, Halg.
  rewrite GetSigningMethod_HS256. cbn iota. unfold keyFunc.
  cbn [Method Claims default Standard]. unfold id.
  unfold jwt.Verify. cbn [take lookup list_lookup default Join].
  rewrite Hdm. rewrite bool_decide_eq_true_2 by done.
  exists {| Raw := Join [Join [A; B] "."; C] ".";
            Method := Some (SigningMethodHMAC SHA256); Header := hd;
            Claims := Some c; Signature := C; Valid := false |}.
  split; [done|].
  destruct (jwt.Valid_claims (Standard c)) as [err|] eqn:Hv; [|done].
  destruct (Valid_claims_error _ _ Hv) as (inner & flags & -> & Hf).
  cbn. apply Z.eqb_neq in Hf. rewrite Hf. done.
Qed.

(** X1.  The signed token of jwtSave verifies.  For claims whose time fields
    all pass at the current time (expiry unset or not passed, issued-at
    and not-before unset or not in the future), and which the codecs of
    the runtime give back as they were encoded: jwtSave signs the claims
    and sets the Authorization header, and jwtToken on a request
    carrying that header returns a token without an error, marked valid,
    whose claims are the original ones. *)
Theorem issued_token_verifies (c : JWTClaims) :
  codec_faithful c →
  in_time (Standard c) →
  ∃ signed,
    jwt.SignedString (jwt.NewWithClaims jwt.SigningMethodHS256 c) jwtSecret
      = (signed, None) ∧
    (∀ e, jwtSave c e =
            (Ok None,
             env_call (HeaderSet "Authorization" (jwtPrefix +:+ signed)) e)) ∧
    ∀ r, Header_Get r "Authorization" = jwtPrefix +:+ signed →
         ∃ tok, jwtToken r = (Some tok, None) ∧
                Valid tok = true ∧ Claims tok = Some c.
Proof.
  intros Hc Htime.
  destruct (jwtToken_issued c Hc) as (signed & Hs & Hr).
  exists signed. split; [done|]. split.
  { intros e. unfold jwtSave. rewrite Hs. done. }
  intros r Hh. destruct (Hr r Hh) as (tok & Hcl & ->).
  apply Valid_claims_None in Htime. rewrite Htime.
  eexists. split; [done|]. done.
Qed.

(** X2.  The converse of X1.  When one of the three time fields of the claims fails
    at the current time (expired, issued in the future, not valid yet),
    jwtToken on the header jwtSave set returns the token marked invalid
    together with a validation error, whatever the other two say. *)
Theorem issued_token_out_of_time_is_refused (c : JWTClaims) :
  codec_faithful c →
  ¬ in_time (Standard c) →
  ∃ signed,
    jwt.SignedString (jwt.NewWithClaims jwt.SigningMethodHS256 c) jwtSecret
      = (signed, None) ∧
    ∀ r, Header_Get r "Authorization" = jwtPrefix +:+ signed →
         ∃ tok inner flags,
           jwtToken r = (Some tok,
                         Some (ValidationError inner flags EmptyString)) ∧
           flags ≠ 0 ∧ Valid tok = false ∧ Claims tok = Some c.
Proof.
  intros Hc Htime.
  destruct (jwtToken_issued c Hc) as (signed & Hs & Hr).
  exists signed. split; [done|].
  intros r Hh. destruct (Hr r Hh) as (tok & Hcl & ->).
  destruct (jwt.Valid_claims (Standard c)) as [err|] eqn:Hv.
  - destruct (Valid_claims_error _ _ Hv) as (inner & flags & -> & Hf).
    eexists _, inner, flags. split; [done|]. done.
  - apply Valid_claims_None in Hv. done.
Qed.

End RoundTrip.

Lemma issued_token_verifies_witness :
  let c := Example.claims "2" "5" (Example.now + jwtExpire) 0 0 in
  ∃ signed,
    jwt.SignedString (jwt.NewWithClaims jwt.SigningMethodHS256 c) jwtSecret
      = (signed, None) ∧
    (∀ e, jwtSave c e =
            (Ok None,
             env_call (HeaderSet "Authorization" (jwtPrefix +:+ signed)) e)) ∧
    ∀ r, Header_Get r "Authorization" = jwtPrefix +:+ signed →
         ∃ tok, jwtToken r = (Some tok, None) ∧
                Valid tok = true ∧ Claims tok = Some c.
Proof.
  cbn zeta.
  apply (issued_token_verifies
           (Example.claims "2" "5" (Example.now + jwtExpire) 0 0)).
  - eexists _, _, _. cbn zeta.
    repeat split; vm_compute; reflexivity.
  - unfold in_time. simpl. unfold Example.now, jwtExpire. lia.
Defined.

Lemma issued_token_out_of_time_is_refused_witness :
  let c := Example.claims "2" "5" (Example.now + jwtExpire) 0
             (Example.now + 1000) in
  ∃ signed,
    jwt.SignedString (jwt.NewWithClaims jwt.SigningMethodHS256 c) jwtSecret
      = (signed, None) ∧
    ∀ r, Header_Get r "Authorization" = jwtPrefix +:+ signed →
         ∃ tok inner flags,
           jwtToken r = (Some tok,
                         Some (ValidationError inner flags EmptyString)) ∧
           flags ≠ 0 ∧ Valid tok = false ∧ Claims tok = Some c.
Proof.
  cbn zeta.
  apply (issued_token_out_of_time_is_refused
           (Example.claims "2" "5" (Example.now + jwtExpire) 0
              (Example.now + 1000))).
  - eexists _, _, _. cbn zeta.
    repeat split; vm_compute; reflexivity.
  - unfold in_time. simpl. unfold Example.now, jwtExpire. lia.
Defined.

(** ** What jwtToken accepts *)

Lemma HasPrefix_split s pre :
  HasPrefix s pre = true → s = pre +:+ str_drop (String.length pre) s.
Proof.
  revert s. induction pre as [|a pre IH]; intros s Hp; [done|].
  destruct s as [|b s]; [done|]. simpl in Hp.
  apply andb_true_iff in Hp as [Hab Hp]. apply Ascii.eqb_eq in Hab as ->.
  rewrite app_cons. simpl. by rewrite <- (IH s Hp).
Qed.

Section Accepted.
Context `{RT : Runtime}.

(** X3.  jwtToken returns a token without an error only for a header made of
    the prefix Bearer and three dot-separated segments, whose header
    segment names a method of the HMAC family, whose third segment
    decodes to the MAC of the first two under the secret of the package,
    and whose claims pass the time checks; the token is then marked
    valid.  So a token that names another algorithm, carries another
    MAC or is out of time is never accepted. *)
Theorem accepted_token_is_hmac_signed r tok :
  jwtToken r = (Some tok, None) →
  ∃ s p0 p1 p2 h c,
    Header_Get r "Authorization" = jwtPrefix +:+ s ∧
    split_dot s = [p0; p1; p2] ∧
    Method tok = Some (SigningMethodHMAC h) ∧
    DecodeSegment p2 = (hmacSum h jwtSecret (p0 +:+ "." +:+ p1), None) ∧
    Claims tok = Some c ∧
    in_time (Standard c) ∧
    Valid tok = true.
Proof.
  unfold jwtToken. intros Hj.
  destruct (len (Header_Get r "Authorization") =? 0); [discriminate|].
  destruct (HasPrefix (Header_Get r "Authorization") jwtPrefix) eqn:Hp;
    [|discriminate].
  apply HasPrefix_split in Hp.
  set (s := str_drop (String.length jwtPrefix) (Header_Get r "Authorization"))
    in *.
  exists s. unfold jwt.ParseWithClaims, jwt.ParseUnverified in Hj.
  destruct (split_dot s) as [|p0 [|p1 [|p2 [|]]]] eqn:Hs; try discriminate.
  exists p0, p1, p2.
  destruct (DecodeSegment p0) as [hbytes [?|]];
    [by destruct (HasPrefix (jwt.ToLower s) "bearer ")|].
  destruct (unmarshalHeader hbytes) as [hd [?|]]; [discriminate|].
  destruct (DecodeSegment p1) as [cbytes [?|]]; [discriminate|].
  destruct (unmarshalClaims cbytes) as [c [?|]]; [discriminate|].
  destruct (hd !! "alg") as [[alg|]|]; try discriminate.
  destruct (jwt.GetSigningMethod alg) as [m|]; [|discriminate].
  unfold keyFunc in Hj. cbn [Method Claims default Standard] in Hj.
  destruct m as [h|other]; [|discriminate].
  exists h, c. unfold id in Hj.
  unfold jwt.Verify in Hj. cbn [take lookup list_lookup default Join] in Hj.
  destruct (jwt.Valid_claims (Standard c)) as [err|] eqn:Hv.
  { destruct (Valid_claims_error _ _ Hv) as (inner & flags & -> & Hf).
    destruct (DecodeSegment p2) as [sig [?|]];
      [|destruct (bool_decide _)]; cbn in Hj;
      try (apply Z.eqb_neq in Hf; rewrite Hf in Hj; discriminate);
      (destruct (Z.lor flags jwt.ValidationErrorSignatureInvalid =? 0) eqn:Hl;
       [apply Z.eqb_eq, Z.lor_eq_0_iff in Hl as [_ Hl]; discriminate
       |discriminate]). }
  apply Valid_claims_None in Hv.
  destruct (DecodeSegment p2) as [sig [?|]]; [discriminate|].
  destruct (bool_decide (sig = hmacSum h jwtSecret (p0 +:+ "." +:+ p1)))
    eqn:Hm; [|discriminate].
  apply bool_decide_eq_true in Hm as ->.
  cbn in Hj. injection Hj as <-. done.
Qed.

End Accepted.

(** ** The stages before the handlers *)

Lemma same_server_refl e : same_server e e.
Proof. by repeat split. Qed.

Lemma same_server_trans e1 e2 e3 :
  same_server e1 e2 → same_server e2 e3 → same_server e1 e3.
Proof.
  intros (?&?&?&?&?) (?&?&?&?&?). repeat split; congruence.
Qed.

Lemma same_server_calls cs e : same_server e (env_calls cs e).
Proof. by repeat split. Qed.

Lemma same_server_log l e : same_server e (env_log l e).
Proof. by repeat split. Qed.

Section Stages.
Context `{RT : Runtime}.

(** One turn of the loop: it goes on without writing, or it returns
    after one answer with status 400; it does not panic and leaves the
    storage side alone. *)
Lemma coerce_outcome r key par data e :
  ∃ res e',
    coerce r key par data e = (Ok res, e') ∧ same_server e e' ∧
    match res with
    | Continue _ => writer e' = writer e
    | Return => answered (writer e) 400 (writer e')
    end.
Proof.
  destruct (fails r key par) eqn:Hf.
  - unfold fails, coerce in *. fold (required par) (kind par).
    destruct (required par && (len (FormValue r key) =? 0)) eqn:Hreq.
    + destruct (errorAPI_run (ECode "E_UNDEFINEVAL") StatusBadRequest
                  [AString key]
                  (env_log (entry Error (Some "RouteError") "undefined val") e))
        as [x Hx].
      unfold mbind, M_bind, log. rewrite Hx. unfold error_calls.
      destruct (error_fields _ _) as [[c m] p].
      eexists _, _. split; [reflexivity|]. split; [by repeat split|].
      by eexists.
    + simpl in Hf. apply andb_true_iff in Hf as [Hk Hd].
      apply Z.eqb_eq in Hk. apply bool_decide_eq_true in Hd as [err Hd].
      rewrite Hk. simpl.
      destruct (hex.DecodeString (FormValue r key)) as [bin o]. simpl in Hd.
      subst o.
      destruct (errorAPI_run (EError err) StatusBadRequest []
                  (env_log (entry Error (Some "ConvertionError")
                              "decoding http parameter from hex") e))
        as [x Hx].
      unfold mbind, M_bind, log. rewrite Hx.
      eexists _, _. split; [reflexivity|]. split; [by repeat split|].
      by eexists.
  - unfold fails, coerce in *. fold (required par) (kind par).
    apply orb_false_iff in Hf as [-> Hh].
    destruct (kind par =? pInt64) eqn:Hi.
    { destruct (strconv.ParseInt (FormValue r key)) as [v [err|]];
        eexists _, _; (split; [reflexivity|]); by repeat split. }
    destruct (kind par =? pHex) eqn:Hx.
    { simpl in Hh. apply bool_decide_eq_false in Hh.
      destruct (hex.DecodeString (FormValue r key)) as [bin [err|]];
        [destruct Hh; by eexists|].
      eexists _, _; (split; [reflexivity|]); by repeat split. }
    destruct (kind par =? pString);
      eexists _, _; (split; [reflexivity|]); by repeat split.
Qed.

Lemma coerce_all_outcome r schema data e :
  ∃ res e',
    coerce_all r schema data e = (Ok res, e') ∧ same_server e e' ∧
    match res with
    | Continue _ => writer e' = writer e
    | Return => answered (writer e) 400 (writer e')
    end.
Proof.
  revert data e. induction schema as [|[key par] rest IH]; intros data e.
  - eexists _, _. split; [reflexivity|]. split; [apply same_server_refl|done].
  - destruct (coerce_outcome r key par data e) as (res & e1 & Hc & Hs & Hw).
    simpl. unfold mbind, M_bind. rewrite Hc. destruct res as [d1|].
    + destruct (IH d1 e1) as (res & e2 & Hc2 & Hs2 & Hw2).
      exists res, e2. split; [done|].
      split; [by eapply same_server_trans|].
      destruct res; by rewrite <- Hw.
    + eexists _, _. split; [reflexivity|]. done.
Qed.

Lemma read_identity_outcome data e :
  ∃ data' e',
    read_identity data e = (Ok data', e') ∧ same_server e e' ∧
    writer e' = writer e.
Proof.
  unfold read_identity.
  repeat case_match; eexists _, _; (split; [reflexivity|]);
    by repeat split.
Qed.

Lemma authenticate_outcome r e :
  ∃ res e',
    authenticate r zeroData e = (Ok res, e') ∧ same_server e e' ∧
    match res with
    | Continue _ => writer e' = writer e
    | Return => answered (writer e) 400 (writer e')
    end.
Proof.
  unfold authenticate. destruct (jwtToken r) as [tok [err|]].
  - destruct (errorAPI_run (EError err) StatusBadRequest []
                (env_log (entry Error (Some "SessionError") "starting session")
                   e)) as [x Hx].
    unfold mbind, M_bind, log. rewrite Hx.
    eexists _, _. split; [reflexivity|]. split; [by repeat split|].
    by eexists.
  - destruct (read_identity_outcome (set_token zeroData tok) e)
      as (d & e' & Hr & Hs & Hw).
    unfold mbind, M_bind. rewrite Hr.
    eexists _, _. split; [reflexivity|]. done.
Qed.

End Stages.

Section Prepare.
Context `{RT : Runtime}.

Lemma install_gate_outcome r e :
  install_gate r e =
    if negb (installed e) && negb (bool_decide (URLPath r = "/api/v2/install"))
    then
      if negb (DBConn e) && negb (config_IsExist e)
      then (Ok Return,
            env_calls (error_calls (ECode "E_NOTINSTALLED")
                         StatusInternalServerError []) e)
      else (Ok (Continue tt), env_installed e)
    else (Ok (Continue tt), e).
Proof.
  unfold install_gate. unfold mbind at 1. unfold M_bind at 1. unfold get_env.
  destruct (negb (installed e) && _); [|done].
  destruct (negb (DBConn e) && _); [|done].
  destruct (errorAPI_run (ECode "E_NOTINSTALLED") StatusInternalServerError
              [] e) as [x Hx].
  unfold mbind, M_bind. rewrite Hx. done.
Qed.

(** X4.  Everything before the handlers, on every request.  It does not
    panic and does not ask storage.  Either it hands a context on, and
    then it has written the two common headers and nothing else; or it
    returns, and then it has written the two common headers followed by
    exactly one errorAPI answer, with status 400 or 500. *)
Theorem prepare_answers_at_most_once schema r ps e :
  ∃ res e',
    prepare schema r ps e = (Ok res, e') ∧
    next_id e' = next_id e ∧ queries e' = queries e ∧
    match res with
    | Continue _ => writer e' = writer e ++ common_headers
    | Return =>
        ∃ code, (code = 400 ∨ code = 500) ∧
                answered (writer e ++ common_headers) code (writer e')
    end.
Proof.
  unfold prepare. unfold mbind at 1 2 3. unfold M_bind at 1 2 3.
  unfold call. rewrite !env_call_calls, env_calls_app. simpl app.
  fold common_headers. set (e1 := env_calls common_headers e).
  rewrite install_gate_outcome.
  assert (Hgo : ∀ e2,
    next_id e2 = next_id e1 → queries e2 = queries e1 →
    writer e2 = writer e1 →
    ∃ res e',
      (a ← authenticate r zeroData;
       match a with
       | Return => mret Return
       | Continue data => coerce_all r schema (path_params ps data)
       end) e2 = (Ok res, e') ∧
      next_id e' = next_id e ∧ queries e' = queries e ∧
      match res with
      | Continue _ => writer e' = writer e ++ common_headers
      | Return =>
          ∃ code, (code = 400 ∨ code = 500) ∧
                  answered (writer e ++ common_headers) code (writer e')
      end).
  { intros e2 Hn2 Hq2 Hw2.
    destruct (authenticate_outcome r e2) as (a & e3 & Ha & Hs3 & Hw3).
    unfold mbind, M_bind. rewrite Ha. destruct a as [d|].
    - destruct (coerce_all_outcome r schema (path_params ps d) e3)
        as (res & e4 & Hc & Hs4 & Hw4).
      exists res, e4. split; [done|].
      destruct Hs3 as (_&_&_&?&?), Hs4 as (_&_&_&?&?).
      change (next_id e1) with (next_id e) in *.
      change (queries e1) with (queries e) in *.
      change (writer e1) with (writer e ++ common_headers) in *.
      split; [congruence|]. split; [congruence|].
      destruct res.
      + by rewrite Hw4, Hw3, Hw2.
      + exists 400. split; [by left|]. by rewrite <- Hw2, <- Hw3.
    - eexists _, _. split; [reflexivity|].
      destruct Hs3 as (_&_&_&?&?).
      change (next_id e1) with (next_id e) in *.
      change (queries e1) with (queries e) in *.
      change (writer e1) with (writer e ++ common_headers) in *.
      split; [congruence|]. split; [congruence|].
      exists 400. split; [by left|]. by rewrite <- Hw2. }
  destruct (negb (installed e1) && _).
  - destruct (negb (DBConn e1) && _).
    + eexists _, _. split; [reflexivity|]. split; [done|]. split; [done|].
      exists 500. split; [by right|]. unfold error_calls.
      destruct (error_fields _ _) as [[c m] p]. by eexists.
    + by apply Hgo.
  - by apply Hgo.
Qed.

(** X5.  The package variable [installed] after the stage before the
    handlers: it is set when it was set, and when a request for another
    path than the install one finds a database connection or a
    configuration file; nothing in that stage clears it, and a request
    for the install path does not set it. *)
Theorem installation_is_latched schema r ps e :
  installed (prepare schema r ps e).2 =
    installed e
    || (negb (bool_decide (URLPath r = "/api/v2/install"))
        && (DBConn e || config_IsExist e)).
Proof.
  unfold prepare. unfold mbind at 1 2 3. unfold M_bind at 1 2 3.
  unfold call. rewrite !env_call_calls, env_calls_app. simpl app.
  set (e1 := env_calls common_headers e).
  rewrite install_gate_outcome.
  assert (Hgo : ∀ e2,
    installed ((a ← authenticate r zeroData;
       match a with
       | Return => mret Return
       | Continue data => coerce_all r schema (path_params ps data)
       end) e2).2 = installed e2).
  { intros e2.
    destruct (authenticate_outcome r e2) as (a & e3 & Ha & Hs3 & Hw3).
    unfold mbind, M_bind. rewrite Ha. destruct a as [d|].
    - destruct (coerce_all_outcome r schema (path_params ps d) e3)
        as (res & e4 & Hc & Hs4 & Hw4).
      rewrite Hc. simpl. destruct Hs3 as (?&_), Hs4 as (?&_). congruence.
    - simpl. by destruct Hs3 as (?&_). }
  subst e1. cbn [installed DBConn config_IsExist env_calls].
  destruct (installed e) eqn:Hi,
    (bool_decide (URLPath r = "/api/v2/install")) eqn:Hp,
    (DBConn e) eqn:Hd, (config_IsExist e) eqn:Hc;
    cbn [negb andb orb]; try (rewrite Hgo; simpl; congruence); done.
Qed.

(** X6.  A server that is not installed (no database connection, no
    configuration file) answers every path but the install one with
    HTTP 500 and the code E_NOTINSTALLED.  The token is not looked at,
    no parameter is read, no handler runs, and [installed] stays
    unset. *)
Theorem not_installed_is_rejected schema handlers r ps e :
  installed e = false →
  DBConn e = false →
  config_IsExist e = false →
  URLPath r ≠ "/api/v2/install" →
  let e' := env_calls (error_calls (ECode "E_NOTINSTALLED")
                         StatusInternalServerError [])
              (env_calls common_headers
                 (env_log (entry Info None "received http request") e)) in
  DefaultHandler schema handlers r ps e = (Ok tt, e') ∧
  installed e' = false ∧
  logged e' = logged e ++ [entry Info None "received http request"] ∧
  answered (writer e ++ common_headers) 500 (writer e').
Proof.
  intros Hi Hd Hc Hp. cbn zeta. split; [|split; [done|split; [done|]]].
  - apply DefaultHandler_returned.
    unfold prepare. unfold mbind at 1 2 3. unfold M_bind at 1 2 3.
    unfold call. rewrite !env_call_calls, env_calls_app. simpl app.
    rewrite install_gate_outcome. simpl. rewrite Hi, Hd, Hc.
    by rewrite bool_decide_eq_false_2.
  - unfold error_calls. destruct (error_fields _ _) as [[c m] p].
    by eexists.
Qed.

(** X7.  A request without an Authorization header, or with an empty one, is
    anonymous: jwtToken returns neither token nor error, the
    authentication stage writes and logs nothing, and any context handed
    to the handlers has state 0, wallet 0 and no token. *)
Theorem request_without_token_is_anonymous schema r ps :
  Header_Get r "Authorization" = EmptyString →
  jwtToken r = (None, None) ∧
  (∀ e, authenticate r zeroData e = (Ok (Continue zeroData), e)) ∧
  ∀ e data e',
    prepare schema r ps e = (Ok (Continue data), e') →
    state data = 0 ∧ wallet data = 0 ∧ token data = None.
Proof.
  intros Hh.
  assert (Hj : jwtToken r = (None, None)).
  { unfold jwtToken. by rewrite Hh. }
  assert (Ha : ∀ e, authenticate r zeroData e = (Ok (Continue zeroData), e)).
  { intros e. unfold authenticate. by rewrite Hj. }
  split; [done|]. split; [done|].
  intros e data e' Hp. unfold prepare in Hp.
  unfold mbind, M_bind, call in Hp.
  destruct (install_gate r _) as [[[[]|]|v] e1]; try discriminate.
  rewrite Ha in Hp.
  apply coerce_all_identity in Hp as (-> & -> & ->).
  destruct (path_params_identity ps zeroData) as (E1 & E2 & E3).
  rewrite E1, E2, E3. done.
Qed.

(** X8.  An Authorization header that is not empty and does not start with
    the exact prefix "Bearer " is refused: with the gate open, the
    closure answers HTTP 400 with the code E_SERVER and the message
    "wrong authorization value", and returns before any handler runs. *)
Theorem unprefixed_authorization_is_rejected schema handlers r ps e :
  gate_open e r = true →
  Header_Get r "Authorization" ≠ EmptyString →
  HasPrefix (Header_Get r "Authorization") jwtPrefix = false →
  let e' := env_calls (error_calls (EError (Errorf "wrong authorization value"))
                         StatusBadRequest [])
              (env_log (entry Error (Some "SessionError") "starting session")
                 (started e r)) in
  DefaultHandler schema handlers r ps e = (Ok tt, e') ∧
  writer e' = writer e ++ common_headers ++
              [HeaderSet "X-Content-Type-Options" "nosniff";
               WriteHeader 400;
               Write (envelope "E_SERVER" "wrong authorization value"
                        EmptyString)].
Proof.
  intros Hg Hne Hp. cbn zeta. split.
  - apply DefaultHandler_returned. eapply prepare_rejected; [done|].
    unfold jwtToken. rewrite Hp.
    destruct (Header_Get r "Authorization"); [done|]. done.
  - unfold started. simpl.
    destruct (negb (installed e) && _); simpl; by rewrite <- !app_assoc.
Qed.

(** X9.  The identity handed to the handlers.  When jwtToken accepts the
    token and its Wallet claim is not empty, any context handed to the
    handlers has as state and wallet the numbers the State and Wallet
    claims hold, each replaced by 0 when the claim is no int64 in
    decimal, and holds the token. *)
Theorem identity_is_read_from_claims schema r ps tok c :
  jwtToken r = (Some tok, None) →
  Claims tok = Some c →
  Wallet c ≠ EmptyString →
  ∀ e data e',
    prepare schema r ps e = (Ok (Continue data), e') →
    state data = parsed_or_zero (State c) ∧
    wallet data = parsed_or_zero (Wallet c) ∧
    token data = Some tok.
Proof.
  intros Hj Hc Hw e data e' Hp.
  pose proof (jwtToken_nil_error _ _ Hj) as Hv.
  unfold prepare in Hp. unfold mbind, M_bind, call in Hp.
  destruct (install_gate r _) as [[[[]|]|v] e1]; try discriminate.
  unfold authenticate in Hp. rewrite Hj in Hp.
  unfold read_identity in Hp. cbn [token set_token] in Hp.
  rewrite Hv, Hc in Hp.
  assert ((0 <? len (Wallet c)) = true) as Hlen.
  { destruct (Wallet c); [done|]. unfold len. cbn [String.length].
    apply Z.ltb_lt. lia. }
  rewrite Hlen in Hp. unfold parsed_or_zero.
  unfold mbind, M_bind, log, mret, M_ret in Hp.
  destruct (strconv.ParseInt (State c)) as [sv [se|]],
    (strconv.ParseInt (Wallet c)) as [wv [we|]];
    apply coerce_all_identity in Hp as (-> & -> & ->);
    match goal with |- context [path_params ps ?d] =>
      destruct (path_params_identity ps d) as (E1 & E2 & E3) end;
    rewrite E1, E2, E3; done.
Qed.

End Prepare.

Lemma accepted_token_is_hmac_signed_witness :
  let r := Example.request
             [Example.bearer (Example.claims "2" "5" 0 0 0)] [] in
  ∃ tok s p0 p1 p2 h c,
    Header_Get r "Authorization" = jwtPrefix +:+ s ∧
    split_dot s = [p0; p1; p2] ∧
    Method tok = Some (SigningMethodHMAC h) ∧
    DecodeSegment p2 = (hmacSum h jwtSecret (p0 +:+ "." +:+ p1), None) ∧
    Claims tok = Some c ∧
    in_time (Standard c) ∧
    Valid tok = true.
Proof.
  cbn zeta. eexists.
  eapply (accepted_token_is_hmac_signed
            (Example.request [Example.bearer (Example.claims "2" "5" 0 0 0)] [])).
  vm_compute. reflexivity.
Defined.

Lemma not_installed_is_rejected_witness :
  let r := Example.request [] [] in
  let e' := env_calls (error_calls (ECode "E_NOTINSTALLED")
                         StatusInternalServerError [])
              (env_calls common_headers
                 (env_log (entry Info None "received http request")
                    env_fresh)) in
  DefaultHandler [] [Example.probe] r [] env_fresh = (Ok tt, e') ∧
  installed e' = false ∧
  logged e' = logged env_fresh ++ [entry Info None "received http request"] ∧
  answered (writer env_fresh ++ common_headers) 500 (writer e').
Proof.
  apply (not_installed_is_rejected [] [Example.probe] (Example.request [] [])
           [] env_fresh); [reflexivity|reflexivity|reflexivity|].
  vm_compute. discriminate.
Defined.

Lemma request_without_token_is_anonymous_witness :
  let r := Example.request [] [("n", ["7"])] in
  jwtToken r = (None, None) ∧
  (∀ e, authenticate r zeroData e = (Ok (Continue zeroData), e)) ∧
  ∀ e data e',
    prepare [("n", pInt64)] r [] e = (Ok (Continue data), e') →
    state data = 0 ∧ wallet data = 0 ∧ token data = None.
Proof.
  apply (request_without_token_is_anonymous [("n", pInt64)]
           (Example.request [] [("n", ["7"])]) []).
  vm_compute. reflexivity.
Defined.

Lemma unprefixed_authorization_is_rejected_witness :
  let r := Example.request ["bearer abc"] [] in
  let e' := env_calls (error_calls (EError (Errorf "wrong authorization value"))
                         StatusBadRequest [])
              (env_log (entry Error (Some "SessionError") "starting session")
                 (started Example.env0 r)) in
  DefaultHandler [] [Example.probe] r [] Example.env0 = (Ok tt, e') ∧
  writer e' = writer Example.env0 ++ common_headers ++
              [HeaderSet "X-Content-Type-Options" "nosniff";
               WriteHeader 400;
               Write (envelope "E_SERVER" "wrong authorization value"
                        EmptyString)].
Proof.
  apply (unprefixed_authorization_is_rejected [] [Example.probe]
           (Example.request ["bearer abc"] []) [] Example.env0).
  - reflexivity.
  - vm_compute. discriminate.
  - vm_compute. reflexivity.
Defined.

Lemma identity_is_read_from_claims_witness :
  let r := Example.request
             [Example.bearer (Example.claims "2" "5" 0 0 0)] [] in
  ∃ tok,
    jwtToken r = (Some tok, None) ∧
    ∀ e data e',
      prepare [] r [] e = (Ok (Continue data), e') →
      state data = 2 ∧ wallet data = 5 ∧ token data = Some tok.
Proof.
  cbn zeta. eexists. split; [vm_compute; reflexivity|].
  apply (identity_is_read_from_claims []
           (Example.request [Example.bearer (Example.claims "2" "5" 0 0 0)] [])
           [] _ (Example.claims "2" "5" 0 0 0)).
  - vm_compute. reflexivity.
  - reflexivity.
  - discriminate.
Defined.

(** ** The typed parameter map *)

Section Typed.
Context `{RT : Runtime}.

Lemma coerce_continue r key par data e data' e' :
  coerce r key par data e = (Ok (Continue data'), e') →
  fails r key par = false ∧
  params data' = match typed_value r key par with
                 | Some v => <[key := v]> (params data)
                 | None => params data
                 end.
Proof.
  unfold coerce, fails, typed_value. fold (required par) (kind par).
  intros Hc.
  destruct (required par && (len (FormValue r key) =? 0)).
  { destruct (errorAPI_run (ECode "E_UNDEFINEVAL") StatusBadRequest
                [AString key]
                (env_log (entry Error (Some "RouteError") "undefined val") e))
      as [x Hx].
    unfold mbind, M_bind, log in Hc. rewrite Hx in Hc. discriminate. }
  simpl. destruct (kind par =? pInt64) eqn:Hi.
  { apply Z.eqb_eq in Hi. rewrite Hi. simpl.
    destruct (strconv.ParseInt (FormValue r key)) as [v [err|]];
      unfold mbind, M_bind, log, mret, M_ret in Hc; by simplify_eq. }
  destruct (kind par =? pHex).
  { simpl. destruct (hex.DecodeString (FormValue r key)) as [bin [err|]].
    - destruct (errorAPI_run (EError err) StatusBadRequest []
                  (env_log (entry Error (Some "ConvertionError")
                              "decoding http parameter from hex") e))
        as [x Hx].
      unfold mbind, M_bind, log in Hc. rewrite Hx in Hc. discriminate.
    - unfold mret, M_ret in Hc. simplify_eq. split; [|done].
      apply bool_decide_eq_false_2. by intros [? ?]. }
  simpl. destruct (kind par =? pString);
    unfold mret, M_ret in Hc; by simplify_eq.
Qed.

Lemma coerce_all_continue r schema data e data' e' :
  NoDup schema.*1 →
  coerce_all r schema data e = (Ok (Continue data'), e') →
  (∀ key par, (key, par) ∈ schema →
     fails r key par = false ∧
     params data' !! key = match typed_value r key par with
                           | Some v => Some v
                           | None => params data !! key
                           end) ∧
  (∀ key, key ∉ schema.*1 → params data' !! key = params data !! key).
Proof.
  revert data e. induction schema as [|[k p] rest IH]; intros data e Hnd Hc.
  - simpl in Hc. unfold mret, M_ret in Hc. simplify_eq. split; [|done].
    intros key par Hin. by apply elem_of_nil in Hin.
  - simpl in Hc. unfold mbind, M_bind in Hc.
    destruct (coerce r k p data e) as [[[d1|]|v] e1] eqn:H1;
      try (unfold mret, M_ret in Hc; discriminate).
    apply coerce_continue in H1 as [Hf Hp1].
    cbn [fmap list_fmap fst] in Hnd. apply NoDup_cons in Hnd as [Hk Hnd].
    destruct (IH d1 e1 Hnd Hc) as [Hin Hout].
    assert (Hother : ∀ key, key ≠ k → params d1 !! key = params data !! key).
    { intros key Hne. rewrite Hp1. destruct (typed_value r k p); [|done].
      by rewrite lookup_insert_ne. }
    split.
    + intros key par Hel. apply elem_of_cons in Hel as [Heq|Hel].
      * injection Heq as -> ->. split; [done|]. rewrite (Hout _ Hk), Hp1.
        destruct (typed_value r k p); [|done]. by rewrite lookup_insert_eq.
      * destruct (Hin key par Hel) as [Hf' Hv]. split; [done|]. rewrite Hv.
        destruct (typed_value r key par); [done|]. apply Hother.
        intros ->. apply Hk. apply list_elem_of_fmap. by exists (k, par).
    + intros key Hnotin. cbn [fmap list_fmap fst] in Hnotin.
      apply not_elem_of_cons in Hnotin as [Hne Hnotin].
      rewrite (Hout key Hnotin). by apply Hother.
Qed.

Lemma path_params_params ps data :
  params (path_params ps data) = params (path_params ps zeroData).
Proof.
  unfold path_params.
  assert (Hg : ∀ d1 d2, params d1 = params d2 →
    params (foldl (λ d par, set_param d par.1 (VString par.2)) d1 ps) =
    params (foldl (λ d par, set_param d par.1 (VString par.2)) d2 ps)).
  { induction ps as [|q ps IH]; intros d1 d2 Hd; [done|]. simpl.
    apply IH. simpl. by rewrite Hd. }
  by apply Hg.
Qed.

(** X10.  The typed parameter map the handlers receive.  Over a schema whose
    keys are distinct: when the closure hands a context on, no entry of
    the schema fails, and for every entry the map holds, under its key,
    the int64 ParseInt returned for an integer entry, the decoded bytes
    for a hex entry, the raw text for a string entry, replacing a path
    parameter of the same name; a key outside the schema (and one whose
    kind is none of the three) holds what the path parameters gave. *)
Theorem parameters_are_typed schema r ps e data e' :
  NoDup schema.*1 →
  prepare schema r ps e = (Ok (Continue data), e') →
  (∀ key par, (key, par) ∈ schema →
     fails r key par = false ∧
     params data !! key =
       match typed_value r key par with
       | Some v => Some v
       | None => params (path_params ps zeroData) !! key
       end) ∧
  (∀ key, key ∉ schema.*1 →
     params data !! key = params (path_params ps zeroData) !! key).
Proof.
  intros Hnd Hp. unfold prepare in Hp. unfold mbind, M_bind, call in Hp.
  destruct (install_gate r _) as [[[[]|]|v] e1]; try discriminate.
  destruct (authenticate r zeroData e1) as [[[d|]|v] e2]; try discriminate.
  destruct (coerce_all_continue _ _ _ _ _ _ Hnd Hp) as [Hin Hout].
  rewrite (path_params_params ps d) in Hin, Hout. done.
Qed.

End Typed.

Lemma parameters_are_typed_witness :
  let r := Example.request []
             [("n", ["7"]); ("sig", ["00ff"]); ("name", ["bob"])] in
  let schema := [("n", pInt64); ("sig", pHex); ("name", pString)] in
  let ps := [("id", "9"); ("name", "path")] in
  let data := set_param (set_param (set_param (path_params ps zeroData)
                "n" (VInt64 7)) "sig" (VBytes [Byte.x00; Byte.xff]))
                "name" (VString "bob") in
  prepare schema r ps Example.env0 =
    (Ok (Continue data), env_calls common_headers Example.env0) ∧
  (∀ key par, (key, par) ∈ schema →
     fails r key par = false ∧
     params data !! key =
       match typed_value r key par with
       | Some v => Some v
       | None => params (path_params ps zeroData) !! key
       end) ∧
  (∀ key, key ∉ schema.*1 →
     params data !! key = params (path_params ps zeroData) !! key).
Proof.
  cbn zeta.
  assert (Hp : prepare [("n", pInt64); ("sig", pHex); ("name", pString)]
            (Example.request []
               [("n", ["7"]); ("sig", ["00ff"]); ("name", ["bob"])])
            [("id", "9"); ("name", "path")] Example.env0 =
          (Ok (Continue
                 (set_param (set_param (set_param
                    (path_params [("id", "9"); ("name", "path")] zeroData)
                    "n" (VInt64 7)) "sig" (VBytes [Byte.x00; Byte.xff]))
                    "name" (VString "bob"))),
           env_calls common_headers Example.env0)).
  { reflexivity. }
  split; [exact Hp|].
  refine (parameters_are_typed _ _ _ _ _ _ _ Hp).
  cbn [fmap list_fmap fst].
  repeat (apply NoDup_cons; split;
          [intros Hin;
           repeat (apply elem_of_cons in Hin as [Hin|Hin]; [discriminate|]);
           by apply elem_of_nil in Hin|]).
  apply NoDup_nil_2.
Defined.

(** ** The two authorization handlers *)

Section Guards.
Context `{RT : Runtime}.

Lemma authWallet_run r data e :
  authWallet r data e =
    if wallet data =? 0
    then (Ok (Some (Errorf (Sprintf (error_fields (ECode "Unauthorized") []).1.2 [])),
              data),
          env_calls (error_calls (ECode "Unauthorized") StatusUnauthorized []) e)
    else (Ok (None, data), e).
Proof.
  unfold authWallet. destruct (wallet data =? 0); [|done].
  change (StatusText StatusUnauthorized) with "Unauthorized".
  unfold errorAPI, error_calls.
  destruct (error_fields (ECode "Unauthorized") []) as [[c m] p]. simpl.
  unfold mbind, M_bind, call, mret, M_ret.
  by rewrite !env_call_calls, !env_calls_app.
Qed.

Lemma authState_run r data e :
  authState r data e =
    if (wallet data =? 0) || (state data <=? 1)
    then (Ok (Some (Errorf (Sprintf (error_fields (ECode "Unauthorized") []).1.2 [])),
              data),
          env_calls (error_calls (ECode "Unauthorized") StatusUnauthorized []) e)
    else (Ok (None, data), e).
Proof.
  unfold authState. destruct ((wallet data =? 0) || (state data <=? 1)); [|done].
  change (StatusText StatusUnauthorized) with "Unauthorized".
  unfold errorAPI, error_calls.
  destruct (error_fields (ECode "Unauthorized") []) as [[c m] p]. simpl.
  unfold mbind, M_bind, call, mret, M_ret.
  by rewrite !env_call_calls, !env_calls_app.
Qed.


(** X12.  A context without a wallet does not get past the guards.  When the
    closure hands on a context whose wallet is 0 (no token, or a token
    with an empty or non-numeric Wallet claim) and the chain starts with
    authWallet or authState, the closure answers HTTP 401 once, with the
    code Unauthorized, and no later handler runs. *)
Theorem anonymous_is_unauthorized schema rest r ps e data e1 :
  prepare schema r ps (env_log (entry Info None "received http request") e)
    = (Ok (Continue data), e1) →
  wallet data = 0 →
  let e' := env_calls (error_calls (ECode "Unauthorized")
                         StatusUnauthorized []) e1 in
  DefaultHandler schema (authWallet :: rest) r ps e = (Ok tt, e') ∧
  DefaultHandler schema (authState :: rest) r ps e = (Ok tt, e') ∧
  answered (writer e1) 401 (writer e').
Proof.
  intros Hp Hw. cbn zeta. split; [|split].
  - rewrite (DefaultHandler_prepared _ _ _ _ _ _ _ Hp).
    cbn [run_handlers]. unfold mbind, M_bind.
    rewrite authWallet_run, Hw. done.
  - rewrite (DefaultHandler_prepared _ _ _ _ _ _ _ Hp).
    cbn [run_handlers]. unfold mbind, M_bind.
    rewrite authState_run, Hw. done.
  - unfold error_calls. destruct (error_fields _ _) as [[c m] p].
    by eexists.
Qed.

End Guards.

Lemma anonymous_is_unauthorized_witness :
  let r := Example.request [] [] in
  let e1 := started Example.env0 r in
  let e' := env_calls (error_calls (ECode "Unauthorized")
                         StatusUnauthorized []) e1 in
  DefaultHandler [] (authWallet :: [Example.probe]) r [] Example.env0
    = (Ok tt, e') ∧
  DefaultHandler [] (authState :: [Example.probe]) r [] Example.env0
    = (Ok tt, e') ∧
  answered (writer e1) 401 (writer e').
Proof.
  apply (anonymous_is_unauthorized [] [Example.probe] (Example.request [] [])
           [] Example.env0 (set_params zeroData ∅)); reflexivity.
Defined.

(** ** The ecosystem resolver, continued *)

Section Resolver.
Context `{RT : Runtime}.

(** X13.  What checkEcosystem returns without an error.  It is the partition
    of the session, for a parameter that is not positive, and then
    storage was not asked and nothing was written; or it is the
    parameter itself, positive and below the counter storage gave, and
    then storage was asked once and nothing was written.  So a partition
    at or above the counter is never returned. *)
Theorem checkEcosystem_returns_existing data e s e' :
  checkEcosystem data e = (Ok (s, None), e') →
  (∃ v, params data !! "ecosystem" = Some (VInt64 v) ∧ v ≤ 0 ∧
        s = state data ∧ e' = e)
  ∨ (∃ count, params data !! "ecosystem" = Some (VInt64 s) ∧
              0 < s < count ∧
              next_id e "system_states" = (count, None) ∧
              e' = env_query "system_states" e).
Proof.
  unfold checkEcosystem. intros Hc.
  destruct (params data !! "ecosystem") as [[v| |]|]; try discriminate.
  destruct (Z.ltb_spec 0 v) as [Hv|Hv].
  - right. unfold mbind, M_bind, GetNextID in Hc.
    destruct (next_id e "system_states") as [count [err|]] eqn:Hn.
    + destruct (errorAPI_run (EError err) StatusBadRequest []
                  (env_log (entry Error (Some "DBError")
                              "getting next id system states")
                     (env_query "system_states" e))) as [x Hx].
      unfold log in Hc. rewrite Hx in Hc. discriminate.
    + destruct (Z.leb_spec count v) as [Hle|Hlt].
      * destruct (errorAPI_run (ECode "E_ECOSYSTEM") StatusBadRequest
                    [AInt64 v]
                    (env_log (entry Error None
                                "state_id is larger then max count")
                       (env_query "system_states" e))) as [x Hx].
        unfold log in Hc. rewrite Hx in Hc. discriminate.
      * unfold mret, M_ret in Hc. simplify_eq. exists count. by repeat split.
  - left. unfold mret, M_ret in Hc. simplify_eq. exists v. by repeat split.
Qed.

(** X14.  checkEcosystem needs the parameter as an int64.  When the context
    holds no "ecosystem", or holds it as text or bytes, the type
    assertion panics; in a handler run by the closure, the panic is
    recovered and the request is answered with the environment of a
    recovered panic (HTTP 500, code E_RECOVERED), whatever the handler
    would have done with the partition. *)
Theorem undeclared_ecosystem_is_recovered schema rest r ps e data e1
    (k : Request → apiData → Z * option error → M (option error * apiData)) :
  prepare schema r ps (env_log (entry Info None "received http request") e)
    = (Ok (Continue data), e1) →
  (∀ v, params data !! "ecosystem" ≠ Some (VInt64 v)) →
  (∃ v, checkEcosystem data e1 = (Panic v, e1)) ∧
  DefaultHandler schema
    ((λ r d, res ← checkEcosystem d; k r d res) :: rest) r ps e
    = (Ok tt, recovered e1).
Proof.
  intros Hp Hne.
  assert (Hc : ∃ v, checkEcosystem data e1 = (Panic v, e1)).
  { unfold checkEcosystem.
    destruct (params data !! "ecosystem") as [[v| |]|] eqn:Hl;
      try by eexists.
    by destruct (Hne v). }
  split; [done|]. destruct Hc as [v Hc].
  rewrite (DefaultHandler_prepared _ _ _ _ _ _ _ Hp).
  cbn [run_handlers]. unfold mbind, M_bind. rewrite Hc. done.
Qed.

End Resolver.

Lemma checkEcosystem_returns_existing_witness :
  let data := set_param (set_identity zeroData 1 5) "ecosystem" (VInt64 2) in
  ∃ count, params data !! "ecosystem" = Some (VInt64 2) ∧
           0 < 2 < count ∧
           next_id Example.env0 "system_states" = (count, None).
Proof.
  cbn zeta.
  destruct (checkEcosystem_returns_existing
              (set_param (set_identity zeroData 1 5) "ecosystem" (VInt64 2))
              Example.env0 2 (env_query "system_states" Example.env0))
    as [(v & Hl & Hv & _)|(count & Hl & Hr & Hn & _)].
  - reflexivity.
  - exfalso. cbn [params set_param set_params] in Hl.
    rewrite lookup_insert_eq in Hl. injection Hl as <-. lia.
  - exists count. done.
Defined.

Lemma undeclared_ecosystem_is_recovered_witness :
  let r := Example.request [] [("ecosystem", ["2"])] in
  let schema := [("ecosystem", pString)] in
  let e1 := started Example.env0 r in
  (∃ v, checkEcosystem
          (set_param (set_params zeroData ∅) "ecosystem" (VString "2")) e1
        = (Panic v, e1)) ∧
  DefaultHandler schema
    [λ r d, res ← checkEcosystem d; mret (res.2, d)] r [] Example.env0
    = (Ok tt, recovered e1).
Proof.
  apply (undeclared_ecosystem_is_recovered [("ecosystem", pString)] []
           (Example.request [] [("ecosystem", ["2"])]) [] Example.env0
           (set_param (set_params zeroData ∅) "ecosystem" (VString "2"))
           (started Example.env0 (Example.request [] [("ecosystem", ["2"])]))
           (λ r d res, mret (res.2, d))).
  - reflexivity.
  - intros v. cbn [params set_param set_params].
    rewrite lookup_insert_eq. discriminate.
Defined.

(** ** The response of a chain that succeeds *)

Section Success.
Context `{RT : Runtime}.

(** X15.  When the closure hands a context on and every handler returns nil,
    the closure does not touch the status: it marshals the result the
    last handler left and appends one Write with the JSON text to what
    the handlers wrote; or, when marshalling fails, it logs the failure
    and answers HTTP 500 with the code E_SERVER and the text of the
    marshalling error. *)
Theorem successful_chain_writes_result schema handlers r ps e data e1 data' e2 :
  prepare schema r ps (env_log (entry Info None "received http request") e)
    = (Ok (Continue data), e1) →
  all_succeed handlers r data e1 = Some (data', e2) →
  DefaultHandler schema handlers r ps e =
    match Marshal (result data') with
    | (json, None) => (Ok tt, env_calls [Write json] e2)
    | (_, Some err) =>
        (Ok tt,
         env_calls [HeaderSet "X-Content-Type-Options" "nosniff";
                    WriteHeader 500;
                    Write (envelope "E_SERVER" (Error_text err) EmptyString)]
           (env_log (entry Error (Some "JSONMarshallError")
                       "marhsalling http response to json") e2))
    end.
Proof.
  intros Hp Hs. rewrite (DefaultHandler_prepared _ _ _ _ _ _ _ Hp).
  rewrite (run_handlers_succeed _ _ _ _ _ _ Hs). unfold respond.
  destruct (Marshal (result data')) as [json [err|]]; [|done].
  destruct (errorAPI_run (EError err) StatusInternalServerError []
              (env_log (entry Error (Some "JSONMarshallError")
                          "marhsalling http response to json") e2))
    as [x Hx].
  unfold mbind, M_bind, log. rewrite Hx. done.
Qed.

End Success.

Lemma successful_chain_writes_result_witness :
  let r := Example.request [] [] in
  DefaultHandler [] [Example.probe; Example.probe] r [] Example.env0 =
    (Ok tt, env_calls [Write "0/0"] (started Example.env0 r)).
Proof.
  cbn zeta.
  rewrite (successful_chain_writes_result [] [Example.probe; Example.probe]
             (Example.request [] []) [] Example.env0
             (set_params zeroData ∅)
             (started Example.env0 (Example.request [] []))
             (@Build_apiData Example.runtime 0 "0/0"%string ∅ 0 0 None)
             (started Example.env0 (Example.request [] [])));
    reflexivity.
Defined.

(** ** Transaction headers *)

Section Headers.
Context `{RT : Runtime} `{PK : Packages}.



(** X17.  The signature and the time of a header.  With signature bytes in
    the context and the time as text: an empty signature makes getHeader
    return an error and log it, and no header is built; a signature that
    is not empty always gives a header, with the wallet as UserID, the
    state as StateID and the number ParseInt returned as Time, even
    when the time is no number (it is then 0 or a bound of int64, and
    the failure is only logged). *)
Theorem getHeader_signature txName data e sig t :
  params data !! "signature" = Some (VBytes sig) →
  params data !! "time" = Some (VString t) →
  (∀ v, params data !! "pubkey" ≠ Some (VInt64 v)) →
  (∀ s, params data !! "pubkey" ≠ Some (VString s)) →
  match sig with
  | [] =>
      getHeader txName data e =
        (Ok (zeroHeader, Some (Errorf "signature is empty")),
         env_log (entry Error None "signature is empty") e)
  | _ :: _ =>
      ∃ hd e',
        getHeader txName data e = (Ok (hd, None), e') ∧
        UserID hd = wallet data ∧ StateID hd = state data ∧
        Type_ hd = TypeInt txName ∧
        BinSignatures hd = EncodeLengthPlusData sig ∧
        Time hd = (strconv.ParseInt t).1 ∧
        writer e' = writer e ∧
        logged e' =
          logged e ++
          match (strconv.ParseInt t).2 with
          | Some _ => [entry Error (Some "ConvertionError")
                         "converting http param time to int"]
          | None => []
          end
  end.
Proof.
  intros Hs Ht Hp1 Hp2. unfold getHeader. rewrite Hs, Ht.
  assert (Hpk : ∃ pk, ∀ e0,
    (match params data !! "pubkey" with
     | Some (VBytes b) =>
         if 0 <? Z.of_nat (List.length b) then mret (last64 b)
         else mret (list_byte_of_string "null")
     | Some _ => panic "interface conversion: interface {} is not []uint8"
     | None => mret (list_byte_of_string "null")
     end) e0 = (Ok pk, e0)).
  { destruct (params data !! "pubkey") as [[v|b|s]|].
    - by destruct (Hp1 v).
    - destruct (0 <? Z.of_nat (List.length b)); by eexists.
    - by destruct (Hp2 s).
    - by eexists. }
  destruct Hpk as [pk Hpk].
  destruct sig as [|s0 sig]; unfold mbind at 1; unfold M_bind at 1;
    rewrite Hpk; [done|].
  cbn [List.length].
  assert ((Z.of_nat (S (List.length sig)) =? 0) = false) as ->
    by (apply Z.eqb_neq; lia).
  destruct (strconv.ParseInt t) as [v [err|]];
    eexists _, _; (split; [reflexivity|]); simpl;
    rewrite ?app_nil_r; done.
Qed.


End Headers.


Lemma getHeader_signature_witness :
  let data := set_param (set_param (set_identity zeroData 2 5)
                "signature" (VBytes [Byte.x0a])) "time" (VString "soon") in
  ∃ hd e',
    getHeader (PK := example_packages) "NewAccount" data Example.env0
      = (Ok (hd, None), e') ∧
    UserID hd = 5 ∧ StateID hd = 2 ∧ Type_ hd = 9 ∧
    BinSignatures hd = [Byte.x01; Byte.x0a] ∧
    Time hd = 0 ∧
    writer e' = [] ∧
    logged e' = [entry Error (Some "ConvertionError")
                   "converting http param time to int"].
Proof.
  cbn zeta.
  apply (getHeader_signature (PK := example_packages) "NewAccount"
    (set_param (set_param (set_identity zeroData 2 5)
       "signature" (VBytes [Byte.x0a])) "time" (VString "soon"))
    Example.env0 [Byte.x0a] "soon").
  - reflexivity.
  - reflexivity.
  - intros v. vm_compute. discriminate.
  - intros s. vm_compute. discriminate.
Defined.


(** ** The list of accounts *)







Section Listing.
Context `{PK : Packages}.



End Listing.



Section HeaderNeeds.
Context `{RT : Runtime} `{PK : Packages}.

(** X22.  What getHeader needs of the context.  It returns (rather than
    panics) only when the context holds the signature as bytes, and it
    returns a header without an error only when, besides, the signature
    is not empty and the time is held as text: an endpoint that calls it
    has to declare signature as a hex parameter and time as a string
    one. *)
Theorem getHeader_needs_typed_parameters txName data e res e' :
  getHeader txName data e = (Ok res, e') →
  ∃ sig,
    params data !! "signature" = Some (VBytes sig) ∧
    (sig = [] → res.2 = Some (Errorf "signature is empty")) ∧
    (res.2 = None →
       sig ≠ [] ∧ ∃ t, params data !! "time" = Some (VString t)).
Proof.
  unfold getHeader. intros Hg.
  unfold mbind, M_bind, mret, M_ret, log, panic in Hg.
  destruct (params data !! "signature") as [[v|sig|s]|];
    try (repeat case_match; discriminate).
  exists sig. split; [done|].
  destruct sig as [|s0 sig].
  - repeat case_match; simplify_eq; split; done.
  - destruct (params data !! "time") as [[v|b|t]|];
      try (repeat case_match; discriminate).
    split; [done|]. intros _. split; [done|]. by eexists.
Qed.

End HeaderNeeds.

Lemma getHeader_needs_typed_parameters_witness :
  let data := set_param (set_param (set_identity zeroData 2 5)
                "signature" (VBytes [Byte.x0a])) "time" (VString "7") in
  ∃ sig,
    params data !! "signature" = Some (VBytes sig) ∧
    sig ≠ [] ∧ ∃ t, params data !! "time" = Some (VString t).
Proof.
  cbn zeta.
  destruct (getHeader_needs_typed_parameters (PK := example_packages)
    "NewAccount"
    (set_param (set_param (set_identity zeroData 2 5)
       "signature" (VBytes [Byte.x0a])) "time" (VString "7"))
    Example.env0
    ({| Type_ := 9; Time := 7; UserID := 5; StateID := 2;
        PublicKey := list_byte_of_string "null";
        BinSignatures := [Byte.x01; Byte.x0a] |}, None)
    Example.env0) as (sig & Hs & _ & Hok); [reflexivity|].
  exists sig. split; [exact Hs|]. by apply Hok.
Defined.

Section Envelope.
Context `{RT : Runtime}.

(** X23.  One errorAPI call, whatever it is given.  It appends three calls
    to the writer (the nosniff header, the status it was passed, one
    line with the envelope) and changes nothing else; it always returns
    an error.  For an error value the code is E_SERVER and the message
    its text; for a code outside the registry the message is the code
    itself and the arguments are dropped; for a code of the registry
    the message is the template, formatted only when arguments are
    given, and these are listed, quoted, in the params of the
    envelope. *)
Theorem errorAPI_writes_one_envelope err code args e :
  ∃ errCode msg errParams,
    errorAPI err code args e =
      (Ok (Errorf (Sprintf msg [])),
       env_calls [HeaderSet "X-Content-Type-Options" "nosniff";
                  WriteHeader code;
                  Write (envelope errCode msg errParams)] e) ∧
    match err with
    | EError e0 =>
        errCode = "E_SERVER" ∧ msg = Error_text e0 ∧ errParams = EmptyString
    | ECode v =>
        errCode = v ∧
        match errors !! v, args with
        | None, _ => msg = v ∧ errParams = EmptyString
        | Some tmpl, [] => msg = tmpl ∧ errParams = EmptyString
        | Some tmpl, _ :: _ =>
            msg = Sprintf tmpl args ∧
            errParams = ", " +:+ quoted "params" +:+ ": [" +:+
                        Join ((λ a, quoted (fmt_v a)) <$> args) "," +:+ "]"
        end
    end.
Proof.
  unfold errorAPI.
  destruct (error_fields err args) as [[c m] p] eqn:Hf.
  exists c, m, p. split.
  - unfold mbind, M_bind, call, mret, M_ret.
    by rewrite !env_call_calls, !env_calls_app.
  - unfold error_fields in Hf. destruct err as [v|e0]; [|by simplify_eq].
    destruct (errors !! v) as [tmpl|]; [|by simplify_eq].
    destruct args as [|a args]; simpl in Hf; by simplify_eq.
Qed.

End Envelope.
